(** * pivotalclient: the request and pagination engine of [PivotalClient]

    A shallow embedding of [src/pivotalclient/__init__.py].  Python
    dictionaries that the client creates and mutates live in a store and are
    passed around by reference; the JSON values decoded from responses are
    immutable data.  The network is a server that answers every GET from the
    history of requests issued so far; every GET is recorded in a log, so
    that the number and the contents of the calls can be stated. *)

From Stdlib Require Import ZArith String Ascii DecimalString.
From stdpp Require Import gmap strings list fin_maps.

Local Set Warnings "-register-all".
Local Open Scope Z_scope.

(** ** Values *)

(** What [json.loads] can produce (numbers restricted to integers).  An
    object keeps its pairs in insertion order, as a Python [dict] does. *)
Inductive json : Type :=
| JNull
| JBool (b : bool)
| JNum (n : Z)
| JStr (s : string)
| JArr (items : list json)
| JObj (fields : list (string * json)).

(** A dictionary built by the client: querystrings, headers, [api_filter]. *)
Abbreviation Dict := (gmap string json).

(** A reference to such a dictionary. *)
Abbreviation loc := nat.

Inductive exn : Type :=
| ApiError (msg : string)
| AttributeError
| TypeError
| KeyError
| IndexError
| ValueError
| RequestException.

Record Response : Type := mkResponse {
  status_code : Z;
  (** the decoded body; [None] when the body is not JSON *)
  body : option json
}.

Record Request : Type := mkRequest {
  req_endpoint : string;
  req_params : Dict;
  req_headers : Dict
}.

(** What one call of [requests.get] can do. *)
Inductive net_outcome : Type :=
| NetReturn (resp : option Response)
| NetRaise.

Record World : Type := mkWorld {
  heap : list Dict;
  log : list Request
}.

(** ** Results and the monad of the client *)

Inductive res (A : Type) : Type :=
| Ret (a : A)
| Raise (e : exn)
| OutOfFuel.

Arguments Ret {A} a.
Arguments Raise {A} e.
Arguments OutOfFuel {A}.

Definition M (A : Type) : Type := World -> res A * World.

Definition ret {A} (a : A) : M A := fun w => (Ret a, w).

Definition raise {A} (e : exn) : M A := fun w => (Raise e, w).

Definition out_of_fuel {A} : M A := fun w => (OutOfFuel, w).

Definition bind {A B} (m : M A) (k : A -> M B) : M B :=
  fun w =>
    match m w with
    | (Ret a, w') => k a w'
    | (Raise e, w') => (Raise e, w')
    | (OutOfFuel, w') => (OutOfFuel, w')
    end.

Definition lift {A} (r : res A) : M A := fun w => (r, w).

(** Sequencing of results that need no world. *)
Definition rbind {A B} (r : res A) (k : A -> res B) : res B :=
  match r with
  | Ret a => k a
  | Raise e => Raise e
  | OutOfFuel => OutOfFuel
  end.

Declare Scope py_scope.
Delimit Scope py_scope with py.
Notation "x <- m ;; k" := (bind m (fun x => k))
  (at level 100, m at next level, right associativity) : py_scope.
Notation "m ;;; k" := (bind m (fun _ => k))
  (at level 100, right associativity) : py_scope.
Local Open Scope py_scope.

(** ** Python built-ins used by the client *)

Definition DEFAULT_PAGE_LIMIT : Z := 1000.

Definition quote : string := String (ascii_of_nat 34) EmptyString.

Definition str_of_int (n : Z) : string := NilZero.string_of_int (Z.to_int n).

Fixpoint assoc (k : string) (kv : list (string * json)) : option json :=
  match kv with
  | [] => None
  | (k', v) :: rest => if String.eqb k k' then Some v else assoc k rest
  end.

(** [x.get(k, dflt)]: only a dict has the method. *)
Definition py_get (x : json) (k : string) (dflt : json) : res json :=
  match x with
  | JObj kv => Ret (default dflt (assoc k kv))
  | _ => Raise AttributeError
  end.

(** [len(x)] *)
Definition py_len (x : json) : res Z :=
  match x with
  | JArr l => Ret (Z.of_nat (length l))
  | JObj kv => Ret (Z.of_nat (length kv))
  | JStr s => Ret (Z.of_nat (String.length s))
  | _ => Raise TypeError
  end.

Fixpoint chars (s : string) : list json :=
  match s with
  | EmptyString => []
  | String c s' => JStr (String c EmptyString) :: chars s'
  end.

(** The elements [x] yields when iterated over ([extend], [for]). *)
Definition py_iter (x : json) : res (list json) :=
  match x with
  | JArr l => Ret l
  | JObj kv => Ret (map (fun p => JStr (fst p)) kv)
  | JStr s => Ret (chars s)
  | _ => Raise TypeError
  end.

(** [a + b] *)
Definition py_add (a b : json) : res json :=
  match a, b with
  | JNum x, JNum y => Ret (JNum (x + y))
  | JNum x, JBool y => Ret (JNum (x + Z.b2z y))
  | JBool x, JNum y => Ret (JNum (Z.b2z x + y))
  | JBool x, JBool y => Ret (JNum (Z.b2z x + Z.b2z y))
  | JStr x, JStr y => Ret (JStr (x +:+ y))
  | JArr x, JArr y => Ret (JArr (x ++ y))
  | _, _ => Raise TypeError
  end.

(** Truth value of a value: [if x], [not x]. *)
Definition py_truthy (x : json) : bool :=
  match x with
  | JNull => false
  | JBool b => b
  | JNum n => negb (n =? 0)
  | JStr s => negb (String.eqb s EmptyString)
  | JArr l => negb (Nat.eqb (length l) 0)
  | JObj kv => negb (Nat.eqb (length kv) 0)
  end.

(** Truth value of a [requests.Response]: its [ok] property, false exactly
    for the statuses [raise_for_status] rejects. *)
Definition response_truthy (r : Response) : bool :=
  negb ((400 <=? status_code r) && (status_code r <? 600)).

(** ** The store *)

(** A dictionary display, or [dict(...)]: a new dictionary at the end of
    the store. *)
Definition dict_new (d : Dict) : M loc :=
  fun w => (Ret (length (heap w)), mkWorld (heap w ++ [d]) (log w)).

(** The contents behind a reference.  References are made by [dict_new]
    only and so point into the store; past its end the lookup gives the
    empty dictionary. *)
Definition dict_read (l : loc) : M Dict :=
  fun w => (Ret (heap w !!! l), w).

(** [d.copy()] *)
Definition dict_copy (l : loc) : M loc :=
  d <- dict_read l ;; dict_new d.

(** [d[k] = v] *)
Definition dict_setitem (l : loc) (k : string) (v : json) : M unit :=
  fun w => (Ret tt, mkWorld (<[l := <[k := v]> (heap w !!! l)]> (heap w)) (log w)).

(** [d[k]] *)
Definition dict_getitem (l : loc) (k : string) : M json :=
  d <- dict_read l ;;
  match d !! k with
  | Some v => ret v
  | None => raise KeyError
  end.

(** Truth value of a dictionary: the empty one is false. *)
Definition dict_truthy (l : loc) : M bool :=
  d <- dict_read l ;; ret (negb (Nat.eqb (size d) 0)).

(** [querystring.copy() if querystring else {}] *)
Definition copy_or_empty (querystring : option loc) : M loc :=
  match querystring with
  | Some q =>
      nonempty <- dict_truthy q ;;
      if nonempty then dict_copy q else dict_new ∅
  | None => dict_new ∅
  end.

Section Client.

(** The remote service: the outcome of a GET, given all the requests issued
    so far, the current one last. *)
Variable server : list Request -> net_outcome.

(** [str] of a list or a dict, as [format] renders it. *)
Variable py_repr : json -> string.

Definition py_str (x : json) : string :=
  match x with
  | JNull => "None"
  | JBool true => "True"
  | JBool false => "False"
  | JNum n => str_of_int n
  | JStr s => s
  | _ => py_repr x
  end.

(** What [format] makes of a template from a replacement field with a body
    on ([{0}], [{name}], [{!r}], [{:>8}], ...): the flag tells whether an
    empty field [{}] has been filled before it, the string is the template
    from the opening brace of that field to its end, the last argument the
    one positional argument. *)
Variable py_field : bool -> string -> string -> res string.

(** [template.format(arg)], scanned from left to right as Python does:
    [{{] and [}}] stand for one brace, the first [{}] takes the argument and
    a second one finds no argument left, a brace on its own is an error,
    and a field with a body is left to [py_field]. *)
Fixpoint format_from (filled : bool) (template arg : string) : res string :=
  match template with
  | EmptyString => Ret EmptyString
  | String c rest =>
      if Ascii.eqb c "{" then
        match rest with
        | EmptyString => Raise ValueError
        | String c' rest' =>
            if Ascii.eqb c' "{"
            then rbind (format_from filled rest' arg) (fun s => Ret (String "{" s))
            else if Ascii.eqb c' "}"
            then if filled then Raise IndexError
                 else rbind (format_from true rest' arg) (fun s => Ret (arg +:+ s))
            else py_field filled template arg
        end
      else if Ascii.eqb c "}" then
        match rest with
        | EmptyString => Raise ValueError
        | String c' rest' =>
            if Ascii.eqb c' "}"
            then rbind (format_from filled rest' arg) (fun s => Ret (String "}" s))
            else Raise ValueError
        end
      else rbind (format_from filled rest arg) (fun s => Ret (String c s))
  end.

Definition format1 (template arg : string) : res string :=
  format_from false template arg.

(** [requests.get(endpoint, params=params, headers=headers)] *)
Definition requests_get (endpoint : string) (params headers : loc)
  : M (option Response) :=
  fun w =>
    let req := mkRequest endpoint (heap w !!! params) (heap w !!! headers) in
    let w' := mkWorld (heap w) (log w ++ [req]) in
    match server (log w') with
    | NetReturn resp => (Ret resp, w')
    | NetRaise => (Raise RequestException, w')
    end.

(** ** The client *)

Record PivotalClient : Type := mkClient {
  auth_headers : loc;
  account_id : json;
  project_id : json;
  api_root : string;
  api_accounts : string;
  api_account : option string;
  api_account_memberships : option string;
  api_projects : string;
  api_project : option string;
  api_project_memberships : option string;
  api_stories : option string;
  api_story : option string;
  api_activity : option string;
  api_integrations : option string;
  api_integration : option string;
  api_integration_stories : option string;
  api_filter : loc
}.

(** Reading an attribute that [__init__] may not have set. *)
Definition attr (a : option string) : M string :=
  match a with
  | Some s => ret s
  | None => raise AttributeError
  end.

Definition __init__ (api_token : string) (account_id project_id : json)
    (api_root : option string) : M PivotalClient :=
  auth_headers <- dict_new (<["X-TrackerToken" := JStr api_token]> ∅) ;;
  let api_root :=
    match api_root with
    | Some r => if String.eqb r EmptyString then "https://www.pivotaltracker.com/services/v5" else r
    | None => "https://www.pivotaltracker.com/services/v5"
    end in
  let api_accounts := api_root +:+ "/accounts" in
  let api_account :=
    if py_truthy account_id
    then Some (api_accounts +:+ "/" +:+ py_str account_id) else None in
  let api_projects := api_root +:+ "/projects" in
  let api_project :=
    if py_truthy project_id
    then Some (api_projects +:+ "/" +:+ py_str project_id) else None in
  let api_integrations := (fun p => p +:+ "/integrations") <$> api_project in
  api_filter <- dict_new (<["date_format" := JStr "millis"]> (<["filter" := JNull]> ∅)) ;;
  ret {| auth_headers := auth_headers;
         account_id := account_id;
         project_id := project_id;
         api_root := api_root;
         api_accounts := api_accounts;
         api_account := api_account;
         api_account_memberships := (fun a => a +:+ "/memberships") <$> api_account;
         api_projects := api_projects;
         api_project := api_project;
         api_project_memberships := (fun p => p +:+ "/memberships") <$> api_project;
         api_stories := (fun p => p +:+ "/stories") <$> api_project;
         api_story := (fun p => p +:+ "/stories/{}") <$> api_project;
         api_activity := (fun p => p +:+ "/stories/{}/activity") <$> api_project;
         api_integrations := api_integrations;
         api_integration := (fun i => i +:+ "/{}") <$> api_integrations;
         api_integration_stories := (fun i => i +:+ "/{}/stories") <$> api_integrations;
         api_filter := api_filter |}.

Definition _get (self : PivotalClient) (endpoint : string)
    (querystring : option loc) (with_envelope : bool) : M json :=
  _querystring <- copy_or_empty querystring ;;
  (if with_envelope
   then dict_setitem _querystring "envelope" (JStr "true")
   else ret tt) ;;;
  let headers := auth_headers self in
  resp <- requests_get endpoint _querystring headers ;;
  match resp with
  | None =>
      (* [not resp] holds, and [resp.status_code] has nothing to read *)
      raise AttributeError
  | Some r =>
      if (negb (response_truthy r)
          || negb ((200 <=? status_code r) && (status_code r <? 300)))%bool
      then raise (ApiError ("GET " +:+ endpoint +:+ " " +:+ str_of_int (status_code r)))
      else
        match body r with
        | Some j => ret j
        | None => raise ValueError
        end
  end.

(** The [while True] loop of [_get_all]; [fuel] bounds the number of
    iterations the model follows. *)
Fixpoint _get_all_loop (fuel : nat) (self : PivotalClient) (endpoint : string)
    (_querystring : loc) (results : list json) : M (list json) :=
  match fuel with
  | O => out_of_fuel
  | S fuel' =>
      response <- _get self endpoint (Some _querystring) true ;;
      data <- lift (py_get response "data" (JArr [])) ;;
      n <- lift (py_len data) ;;
      if n =? 0 then ret results
      else
        data <- lift (py_get response "data" JNull) ;;
        items <- lift (py_iter data) ;;
        let results := results ++ items in
        pagination <- lift (py_get response "pagination" (JObj [])) ;;
        limit <- lift (py_get pagination "limit" (JNum DEFAULT_PAGE_LIMIT)) ;;
        dict_setitem _querystring "limit" limit ;;;
        offset <- dict_getitem _querystring "offset" ;;
        limit <- dict_getitem _querystring "limit" ;;
        offset <- lift (py_add offset limit) ;;
        dict_setitem _querystring "offset" offset ;;;
        _get_all_loop fuel' self endpoint _querystring results
  end.

Definition _get_all (fuel : nat) (self : PivotalClient) (endpoint : string)
    (querystring : option loc) : M (list json) :=
  _querystring <- copy_or_empty querystring ;;
  dict_setitem _querystring "limit" (JNum DEFAULT_PAGE_LIMIT) ;;;
  dict_setitem _querystring "offset" (JNum 0) ;;;
  _get_all_loop fuel self endpoint _querystring [].

(** The guards find the name of the calling method on the call stack; here
    the caller passes its name. *)
Definition _verify_project_id_exists (self : PivotalClient) (caller_name : string)
  : M unit :=
  if negb (py_truthy (project_id self))
  then raise (ApiError ("Project ID not set on API connection and is required by "
                        +:+ caller_name +:+ "()."))
  else ret tt.

Definition _verify_account_id_exists (self : PivotalClient) (caller_name : string)
  : M unit :=
  if negb (py_truthy (account_id self))
  then raise (ApiError ("Account ID not set on API connection and is required by "
                        +:+ caller_name +:+ "()."))
  else ret tt.

Definition get_stories_by_filter (fuel : nat) (self : PivotalClient)
    (pivotal_filter : json) : M (list json) :=
  _verify_project_id_exists self "get_stories_by_filter" ;;;
  filt <- dict_copy (api_filter self) ;;
  dict_setitem filt "filter" pivotal_filter ;;;
  uri <- attr (api_stories self) ;;
  _get_all fuel self uri (Some filt).

Definition get_stories_by_label (fuel : nat) (self : PivotalClient)
    (label : json) : M (list json) :=
  _verify_project_id_exists self "get_stories_by_label" ;;;
  filt <- dict_new (<["filter" := JStr ("label:" +:+ quote +:+ py_str label +:+ quote)]> ∅) ;;
  uri <- attr (api_stories self) ;;
  _get_all fuel self uri (Some filt).

Definition get_story_activities (self : PivotalClient) (story_id : json) : M json :=
  _verify_project_id_exists self "get_story_activities" ;;;
  template <- attr (api_activity self) ;;
  uri <- lift (format1 template (py_str story_id)) ;;
  _get self uri None false.

Definition get_project_memberships (self : PivotalClient) : M json :=
  _verify_project_id_exists self "get_project_memberships" ;;;
  uri <- attr (api_project_memberships self) ;;
  _get self uri None false.

Definition get_account_memberships (self : PivotalClient) : M json :=
  _verify_account_id_exists self "get_account_memberships" ;;;
  uri <- attr (api_account_memberships self) ;;
  _get self uri None false.

Definition get_integrations (self : PivotalClient) : M json :=
  _verify_project_id_exists self "get_integrations" ;;;
  uri <- attr (api_integrations self) ;;
  _get self uri None false.

Definition get_integration (self : PivotalClient) (integration_id : json) : M json :=
  _verify_project_id_exists self "get_integration" ;;;
  template <- attr (api_integration self) ;;
  uri <- lift (format1 template (py_str integration_id)) ;;
  _get self uri None false.

Definition get_integration_stories (self : PivotalClient) (integration_id : json)
  : M json :=
  _verify_project_id_exists self "get_integration_stories" ;;;
  querystring <- dict_new (<["exclude_linked" := JStr "true"]> ∅) ;;
  template <- attr (api_integration_stories self) ;;
  uri <- lift (format1 template (py_str integration_id)) ;;
  _get self uri (Some querystring) false.

(** The [for] loop of [get_all_integration_stories]. *)
Fixpoint integration_stories_loop (self : PivotalClient) (integrations : list json)
    (results : list json) : M (list json) :=
  match integrations with
  | [] => ret results
  | integration :: rest =>
      id <- lift (py_get integration "id" JNull) ;;
      integration_stories <- get_integration_stories self id ;;
      items <- lift (py_iter integration_stories) ;;
      integration_stories_loop self rest (results ++ items)
  end.

Definition get_all_integration_stories (self : PivotalClient) : M (list json) :=
  integrations <- get_integrations self ;;
  integrations <- lift (py_iter integrations) ;;
  integration_stories_loop self integrations [].

End Client.

(** ** The transport, seen from the outcome of its GET *)

(** The contents of an optional dictionary argument, as the callee sees it. *)
Definition snapshot (w : World) (querystring : option loc) : Dict :=
  match querystring with
  | Some q => heap w !!! q
  | None => ∅
  end.

Definition with_flag (with_envelope : bool) (d : Dict) : Dict :=
  if with_envelope then <["envelope" := JStr "true"]> d else d.

(** The request [_get] sends from world [w]. *)
Definition sent (self : PivotalClient) (endpoint : string)
    (querystring : option loc) (with_envelope : bool) (w : World) : Request :=
  let params := with_flag with_envelope (snapshot w querystring) in
  mkRequest endpoint params ((heap w ++ [params]) !!! auth_headers self).

(** What [_get] makes of the outcome of its GET; lemma [_get_run] shows
    that this is what [_get] returns. *)
Definition get_verdict (endpoint : string) (o : net_outcome) : res json :=
  match o with
  | NetRaise => Raise RequestException
  | NetReturn None => Raise AttributeError
  | NetReturn (Some r) =>
      if (200 <=? status_code r) && (status_code r <? 300)
      then match body r with Some j => Ret j | None => Raise ValueError end
      else Raise (ApiError ("GET " +:+ endpoint +:+ " " +:+ str_of_int (status_code r)))
  end.

(** ** One page of a paginated fetch *)

(** The limit the loop takes from a response. *)
Definition next_limit (response : json) : res json :=
  rbind (py_get response "pagination" (JObj [])) (fun pagination =>
  py_get pagination "limit" (JNum DEFAULT_PAGE_LIMIT)).

(** What the loop makes of a decoded response: [None] for an empty page,
    else the records to append and the limit for the next request; lemma
    [_get_all_loop_step] shows that the loop follows it. *)
Definition page_verdict (response : json) : res (option (list json * json)) :=
  rbind (py_get response "data" (JArr [])) (fun data =>
  rbind (py_len data) (fun n =>
  if n =? 0 then Ret None
  else
    rbind (py_get response "data" JNull) (fun data =>
    rbind (py_iter data) (fun items =>
    rbind (next_limit response) (fun limit =>
    Ret (Some (items, limit))))))).

(** The cursor after a page: the new limit, and the offset moved by it. *)
Definition advance (d : Dict) (limit offset : json) : Dict :=
  <["offset" := offset]> (<["limit" := limit]> d).

(** The cursor [_get_all] starts from. *)
Definition start (d : Dict) : Dict :=
  advance d (JNum DEFAULT_PAGE_LIMIT) (JNum 0).

(** [pagination_trace server E hist d reqs]: [reqs] are the successive
    requests of a loop that starts with cursor [d] after the requests
    [hist]; every request but the last was answered by a page with records,
    from which the next cursor comes. *)
Inductive pagination_trace (server : list Request -> net_outcome) (E : string)
  : list Request -> Dict -> list Request -> Prop :=
| trace_none hist d :
    pagination_trace server E hist d []
| trace_last hist d r :
    req_endpoint r = E ->
    req_params r = with_flag true d ->
    pagination_trace server E hist d [r]
| trace_more hist d r rest j items limit off off' :
    req_endpoint r = E ->
    req_params r = with_flag true d ->
    get_verdict E (server (hist ++ [r])) = Ret j ->
    page_verdict j = Ret (Some (items, limit)) ->
    d !! "offset" = Some off ->
    py_add off limit = Ret off' ->
    pagination_trace server E (hist ++ [r]) (advance d limit off') rest ->
    pagination_trace server E hist d (r :: rest).

(** What a run leaves of the store it started from: nothing is removed, and
    every dictionary but the one at [l] is as it was. *)
Definition store_kept (l : loc) (w w' : World) : Prop :=
  (length (heap w) <= length (heap w'))%nat /\
  forall i, i <> l -> (i < length (heap w))%nat -> heap w' !! i = heap w !! i.

(** ** Servers that follow a script *)

(** The server answers the next requests after [hist] with the outcomes
    of [script], one per request, whatever the requests are. *)
Definition answers (server : list Request -> net_outcome) (hist : list Request)
    (script : list net_outcome) : Prop :=
  forall i o reqs,
    script !! i = Some o -> length reqs = S i -> server (hist ++ reqs) = o.

(** A server that plays [script] from its first request on. *)
Definition scripted (script : list net_outcome) (hist : list Request) : net_outcome :=
  default NetRaise (script !! (length hist - 1)%nat).

(** The outcome carries a page with records [items] and limit [limit]. *)
Definition serves_page (E : string) (o : net_outcome) (page : list json * Z) : Prop :=
  exists j, get_verdict E o = Ret j /\
            page_verdict j = Ret (Some (fst page, JNum (snd page))).

(** The outcome carries a page without records. *)
Definition serves_empty (E : string) (o : net_outcome) : Prop :=
  exists j, get_verdict E o = Ret j /\ page_verdict j = Ret None.

(** A successful response with the given body. *)
Definition ok_response (j : json) : net_outcome :=
  NetReturn (Some (mkResponse 200 (Some j))).

(** [{data: items, pagination: {limit: limit}}] *)
Definition envelope (items : list json) (limit : Z) : json :=
  JObj [("data", JArr items); ("pagination", JObj [("limit", JNum limit)])].

(** ** The public methods, as one call *)

Inductive method : Type :=
| GetStoriesByFilter (pivotal_filter : json)
| GetStoriesByLabel (label : json)
| GetStoryActivities (story_id : json)
| GetProjectMemberships
| GetAccountMemberships
| GetIntegrations
| GetIntegration (integration_id : json)
| GetIntegrationStories (integration_id : json)
| GetAllIntegrationStories.

(** A returned Python list is shown as a JSON array. *)
Definition as_list (m : M (list json)) : M json :=
  l <- m ;; ret (JArr l).

Definition invoke server py_repr py_field (fuel : nat) (self : PivotalClient) (m : method)
  : M json :=
  match m with
  | GetStoriesByFilter f => as_list (get_stories_by_filter server fuel self f)
  | GetStoriesByLabel lb => as_list (get_stories_by_label server py_repr fuel self lb)
  | GetStoryActivities id => get_story_activities server py_repr py_field self id
  | GetProjectMemberships => get_project_memberships server self
  | GetAccountMemberships => get_account_memberships server self
  | GetIntegrations => get_integrations server self
  | GetIntegration id => get_integration server py_repr py_field self id
  | GetIntegrationStories id => get_integration_stories server py_repr py_field self id
  | GetAllIntegrationStories => as_list (get_all_integration_stories server py_repr py_field self)
  end.

Inductive ident_kind : Type := Project | Account.

(** The identifier a method needs. *)
Definition requires (m : method) : ident_kind :=
  match m with
  | GetAccountMemberships => Account
  | _ => Project
  end.

Definition ident_of (self : PivotalClient) (k : ident_kind) : json :=
  match k with
  | Project => project_id self
  | Account => account_id self
  end.

Definition kind_label (k : ident_kind) : string :=
  match k with
  | Project => "Project"
  | Account => "Account"
  end.

(** The method whose guard speaks when the identifier is missing: the
    method itself, except that [get_all_integration_stories] has no guard of
    its own and meets the one of [get_integrations]. *)
Definition guard_name (m : method) : string :=
  match m with
  | GetStoriesByFilter _ => "get_stories_by_filter"
  | GetStoriesByLabel _ => "get_stories_by_label"
  | GetStoryActivities _ => "get_story_activities"
  | GetProjectMemberships => "get_project_memberships"
  | GetAccountMemberships => "get_account_memberships"
  | GetIntegrations => "get_integrations"
  | GetIntegration _ => "get_integration"
  | GetIntegrationStories _ => "get_integration_stories"
  | GetAllIntegrationStories => "get_integrations"
  end.

Definition is_paginated (m : method) : bool :=
  match m with
  | GetStoriesByFilter _ | GetStoriesByLabel _ => true
  | _ => false
  end.

(** The [envelope] parameter a method of each kind sends. *)
Definition envelope_param (m : method) : option json :=
  if is_paginated m then Some (JStr "true") else None.

(** ** Requests and cursors *)

(** The run of [m] from [w] adds to the log only requests that satisfy [P]. *)
Definition logs_only {A} (P : Request -> Prop) (m : M A) (w : World) : Prop :=
  exists reqs, log (snd (m w)) = log w ++ reqs /\ Forall P reqs.

Definition exclude_linked : Dict := <["exclude_linked" := JStr "true"]> ∅.

(** The value [__init__] gives to [api_filter]. *)
Definition api_filter_default : Dict :=
  <["date_format" := JStr "millis"]> (<["filter" := JNull]> ∅).

(** The requests logged between two worlds. *)
Definition requests_of (w w' : World) : list Request :=
  drop (length (log w)) (log w').

(** [pagination.limit] of a response, when the pagination object and its
    limit are there. *)
Definition reported_limit (response : json) : option json :=
  match response with
  | JObj fields =>
      match assoc "pagination" fields with
      | Some (JObj pagination) => assoc "limit" pagination
      | _ => None
      end
  | _ => None
  end.

(** The integer a limit stands for in an addition. *)
Definition int_of (x : json) : option Z :=
  match x with
  | JNum n => Some n
  | JBool b => Some (Z.b2z b)
  | _ => None
  end.

Definition limit_of (r : Request) : option json := req_params r !! "limit".

Definition offset_of (r : Request) : option json := req_params r !! "offset".

(** The limit a request carries stands for a non-negative integer. *)
Definition limit_nonneg (r : Request) : Prop :=
  exists limit v, limit_of r = Some limit /\ int_of limit = Some v /\ 0 <= v.

(** ** Counting pages *)

(** [ceil (n / l)] for [0 < l]. *)
Definition ceil_div (n l : Z) : Z := (n + l - 1) / l.

(** The records of [pages], in order. *)
Definition records (pages : list (list json * Z)) : list json :=
  concat (map fst pages).

(** The server reports limit [L] with every page and fills every page but
    the last, which holds between 1 and [L] records. *)
Fixpoint full_pages (L : Z) (pages : list (list json * Z)) : Prop :=
  match pages with
  | [] => True
  | p :: rest =>
      snd p = L /\
      match rest with
      | [] => 1 <= Z.of_nat (length (fst p)) <= L
      | _ :: _ => Z.of_nat (length (fst p)) = L /\ full_pages L rest
      end
  end.

(** ** Stories of all integrations, as worded *)







(** ** Sample clients *)

Definition no_repr (x : json) : string := EmptyString.

Definition no_field (filled : bool) (template arg : string) : res string :=
  Raise ValueError.

Definition blank_client : PivotalClient :=
  mkClient 0 JNull JNull EmptyString EmptyString None None EmptyString None None None None None None None None 0.

(** [PivotalClient("token", project_id=99)] in an empty store. *)
Definition demo_client : PivotalClient :=
  match fst (__init__ no_repr "token" JNull (JNum 99) None (mkWorld [] [])) with
  | Ret c => c
  | _ => blank_client
  end.

Definition demo_world : World :=
  snd (__init__ no_repr "token" JNull (JNum 99) None (mkWorld [] [])).

(** [PivotalClient("token")]: neither identifier is set. *)
Definition anon_client : PivotalClient :=
  match fst (__init__ no_repr "token" JNull JNull None (mkWorld [] [])) with
  | Ret c => c
  | _ => blank_client
  end.

Definition anon_world : World :=
  snd (__init__ no_repr "token" JNull JNull None (mkWorld [] [])).

(** ** Vocabulary of the further properties *)

(** The root [__init__] settles on: the default when none, or an empty one,
    is given. *)
Definition root_of (api_root : option string) : string :=
  match api_root with
  | Some r =>
      if String.eqb r EmptyString
      then "https://www.pivotaltracker.com/services/v5" else r
  | None => "https://www.pivotaltracker.com/services/v5"
  end.

(** No brace, opening or closing, in the text. *)
Fixpoint brace_free (s : string) : bool :=
  match s with
  | EmptyString => true
  | String c s' =>
      negb (Ascii.eqb c "{") && negb (Ascii.eqb c "}") && brace_free s'
  end.

(** The URL a method addresses first, for the root and the identifiers
    the client was built with. *)
Definition url_of (py_repr : json -> string) (root : string)
    (account project : json) (m : method) : string :=
  let str := py_str py_repr in
  match m with
  | GetStoriesByFilter _ | GetStoriesByLabel _ =>
      root +:+ "/projects/" +:+ str project +:+ "/stories"
  | GetStoryActivities story_id =>
      root +:+ "/projects/" +:+ str project +:+ "/stories/" +:+ str story_id
        +:+ "/activity"
  | GetProjectMemberships =>
      root +:+ "/projects/" +:+ str project +:+ "/memberships"
  | GetAccountMemberships =>
      root +:+ "/accounts/" +:+ str account +:+ "/memberships"
  | GetIntegrations | GetAllIntegrationStories =>
      root +:+ "/projects/" +:+ str project +:+ "/integrations"
  | GetIntegration id =>
      root +:+ "/projects/" +:+ str project +:+ "/integrations/" +:+ str id
  | GetIntegrationStories id =>
      root +:+ "/projects/" +:+ str project +:+ "/integrations/" +:+ str id
        +:+ "/stories"
  end.

(** The methods that make one GET and hand its result on. *)
Definition is_single (m : method) : bool :=
  match m with
  | GetStoryActivities _ | GetProjectMemberships | GetAccountMemberships
  | GetIntegrations | GetIntegration _ | GetIntegrationStories _ => true
  | _ => false
  end.

(** The outcome is a response with a status in [200, 300) and the JSON
    body [j]. *)
Definition delivers (o : net_outcome) (j : json) : Prop :=
  exists r, o = NetReturn (Some r) /\ 200 <= status_code r < 300 /\ body r = Some j.

(** The run of [m] from [w] leaves every dictionary of the store as it
    was, and sends only requests with the headers [h]. *)
Definition tidy {A} (h : Dict) (m : M A) (w : World) : Prop :=
  heap w `prefix_of` heap (snd (m w)) /\
  exists reqs, log (snd (m w)) = log w ++ reqs /\
               Forall (fun r => req_headers r = h) reqs.

(** The headers [__init__] stores for a token. *)
Definition token_headers (api_token : string) : Dict :=
  <["X-TrackerToken" := JStr api_token]> ∅.

(** The values other than [None] that a guard takes for a missing
    identifier. *)
Definition falsy_ids : list json := [JNum 0; JStr EmptyString; JBool false].

(** Bodies the loop of [_get_all] cannot read, with the error each one
    ends in: a body that is no object, a [data] that has no length, a
    [pagination] that is no object. *)
Inductive malformed : json -> exn -> Prop :=
| malformed_body j :
    (forall fields, j <> JObj fields) ->
    malformed j AttributeError
| malformed_data fields v :
    assoc "data" fields = Some v ->
    (v = JNull \/ (exists b, v = JBool b) \/ (exists n, v = JNum n)) ->
    malformed (JObj fields) TypeError
| malformed_pagination fields x items v :
    assoc "data" fields = Some (JArr (x :: items)) ->
    assoc "pagination" fields = Some v ->
    (forall pg, v <> JObj pg) ->
    malformed (JObj fields) AttributeError.

(** The identifier of an integration, as the loop reads it. *)
Definition integration_id (fields : list (string * json)) : json :=
  default JNull (assoc "id" fields).

(** The URL of the stories of the integration [id], under the URL [u] of
    the integrations: [<u>/<id>/stories]. *)
Definition integration_stories_url (py_repr : json -> string) (u : string) (id : json)
  : string :=
  u +:+ "/" +:+ py_str py_repr id +:+ "/stories".

(** The request asks for the stories of the integration with the fields
    [f]: it goes to the URL of its stories and carries the one parameter
    [exclude_linked='true']. *)
Definition asks_stories (py_repr : json -> string) (u : string)
    (f : list (string * json)) (r : Request) : Prop :=
  req_endpoint r = integration_stories_url py_repr u (integration_id f) /\
  req_params r = exclude_linked.

(** [PivotalClient("token", project_id=0)]. *)
Definition zero_client : PivotalClient :=
  match fst (__init__ no_repr "token" JNull (JNum 0) None (mkWorld [] [])) with
  | Ret c => c
  | _ => blank_client
  end.

(** A server that has a page with one record for every request. *)
Definition endless (hist : list Request) : net_outcome :=
  ok_response (envelope [JStr "again"] 1).

(** ** The store and the transport *)

Lemma heap_fresh_total (h : list Dict) (d : Dict) : (h ++ [d]) !!! length h = d.
Proof. apply list_lookup_total_middle. reflexivity. Qed.

Lemma heap_fresh_insert (h : list Dict) (d d' : Dict) :
  <[length h := d']> (h ++ [d]) = h ++ [d'].
Proof.
  replace (length h) with (length h + 0)%nat by lia.
  rewrite insert_app_r. reflexivity.
Qed.

Lemma copy_or_empty_run (q : option loc) (w : World) :
  copy_or_empty q w = (Ret (length (heap w)), mkWorld (heap w ++ [snapshot w q]) (log w)).
Proof.
  destruct q as [l|]; simpl; [|reflexivity].
  unfold copy_or_empty, dict_truthy, dict_copy, dict_read, dict_new, bind, ret; simpl.
  destruct (Nat.eqb (size (heap w !!! l)) 0) eqn:Hsz; simpl; [|reflexivity].
  apply Nat.eqb_eq, map_size_empty_inv in Hsz. rewrite Hsz. reflexivity.
Qed.

Lemma status_test (r : Response) :
  (negb (response_truthy r)
   || negb ((200 <=? status_code r) && (status_code r <? 300)))%bool
  = negb ((200 <=? status_code r) && (status_code r <? 300)).
Proof.
  unfold response_truthy.
  destruct (200 <=? status_code r) eqn:H1, (status_code r <? 300) eqn:H2,
    (400 <=? status_code r) eqn:H3, (status_code r <? 600) eqn:H4; simpl; try reflexivity.
  apply Z.ltb_lt in H2. apply Z.leb_le in H3. lia.
Qed.

Lemma _get_run server (self : PivotalClient) (E : string) (q : option loc)
    (env : bool) (w : World) :
  _get server self E q env w =
    (get_verdict E (server (log w ++ [sent self E q env w])),
     mkWorld (heap w ++ [with_flag env (snapshot w q)])
             (log w ++ [sent self E q env w])).
Proof.
  unfold _get, bind at 1. rewrite copy_or_empty_run.
  unfold sent, with_flag, requests_get, dict_setitem, bind, ret, raise.
  destruct env; simpl;
    rewrite ?heap_fresh_total, ?heap_fresh_insert, ?heap_fresh_total;
    (destruct (server _) as [[r|]|]; simpl; [|reflexivity..]);
    rewrite status_test;
    destruct ((200 <=? status_code r) && (status_code r <? 300))%bool; simpl;
    try reflexivity; destruct (body r); reflexivity.
Qed.

(** ** One page *)

Lemma _get_all_loop_step server self E l results w fuel d off :
  (l < length (heap w))%nat ->
  heap w !!! l = d ->
  d !! "offset" = Some off ->
  let req := sent self E (Some l) true w in
  let page := with_flag true d in
  _get_all_loop server (S fuel) self E l results w =
    match rbind (get_verdict E (server (log w ++ [req]))) page_verdict with
    | Raise e => (Raise e, mkWorld (heap w ++ [page]) (log w ++ [req]))
    | OutOfFuel => (OutOfFuel, mkWorld (heap w ++ [page]) (log w ++ [req]))
    | Ret None => (Ret results, mkWorld (heap w ++ [page]) (log w ++ [req]))
    | Ret (Some (items, limit)) =>
        match py_add off limit with
        | Ret offset =>
            _get_all_loop server fuel self E l (results ++ items)
              (mkWorld (<[l := advance d limit offset]> (heap w) ++ [page])
                       (log w ++ [req]))
        | Raise e =>
            (Raise e, mkWorld (<[l := <["limit" := limit]> d]> (heap w) ++ [page])
                              (log w ++ [req]))
        | OutOfFuel =>
            (OutOfFuel, mkWorld (<[l := <["limit" := limit]> d]> (heap w) ++ [page])
                              (log w ++ [req]))
        end
    end.
Proof.
  intros Hl Hd Hoff req page.
  cbn [_get_all_loop]. unfold bind at 1. rewrite _get_run.
  fold req. simpl snapshot. rewrite Hd. fold page.
  destruct (get_verdict E (server (log w ++ [req]))) as [j| |]; simpl; try reflexivity.
  unfold page_verdict, next_limit, bind, lift.
  destruct (py_get j "data" (JArr [])) as [data| |]; simpl; try reflexivity.
  destruct (py_len data) as [n| |]; simpl; try reflexivity.
  destruct (n =? 0); simpl; try reflexivity.
  destruct (py_get j "data" JNull) as [data'| |]; simpl; try reflexivity.
  destruct (py_iter data') as [items| |]; simpl; try reflexivity.
  destruct (py_get j "pagination" (JObj [])) as [pg| |]; simpl; try reflexivity.
  destruct (py_get pg "limit" (JNum DEFAULT_PAGE_LIMIT)) as [lim| |]; simpl;
    try reflexivity.
  unfold dict_setitem, dict_getitem, dict_read, bind, ret, raise; simpl.
  rewrite (lookup_total_app_l (heap w) [page] l Hl), Hd.
  rewrite (insert_app_l (heap w) [page] l _ Hl).
  assert (Hl' : (l < length (<[l:=<["limit":=lim]> d]> (heap w)))%nat)
    by (rewrite length_insert; exact Hl).
  rewrite (lookup_total_app_l _ [page] l Hl').
  rewrite list_lookup_total_insert_eq by exact Hl.
  rewrite lookup_insert_ne by discriminate. rewrite Hoff. simpl.
  rewrite (lookup_total_app_l _ [page] l Hl').
  rewrite list_lookup_total_insert_eq by exact Hl.
  rewrite lookup_insert_eq. simpl.
  destruct (py_add off lim) as [sum| |]; simpl; try reflexivity.
  rewrite (lookup_total_app_l _ [page] l Hl').
  rewrite list_lookup_total_insert_eq by exact Hl.
  rewrite (insert_app_l _ [page] l _ Hl').
  rewrite list_insert_insert_eq. reflexivity.
Qed.

Lemma _get_all_run server fuel self E q w :
  _get_all server fuel self E q w =
    _get_all_loop server fuel self E (length (heap w)) []
      (mkWorld (heap w ++ [start (snapshot w q)]) (log w)).
Proof.
  unfold _get_all, bind at 1. rewrite copy_or_empty_run.
  unfold dict_setitem, bind; simpl.
  rewrite heap_fresh_total, heap_fresh_insert, heap_fresh_total, heap_fresh_insert.
  reflexivity.
Qed.

(** ** The requests of one paginated fetch *)

Lemma store_kept_refl l w : store_kept l w w.
Proof. split; [lia | auto]. Qed.

Lemma store_kept_step l w lg w' d page :
  (l < length (heap w))%nat ->
  store_kept l (mkWorld (<[l := d]> (heap w) ++ [page]) lg) w' ->
  store_kept l w w'.
Proof.
  intros Hl [Hlen Hfr]; simpl in *.
  rewrite length_app, length_insert in Hlen; simpl in Hlen.
  split; [lia|].
  intros i Hi Hlt. rewrite Hfr; auto.
  - rewrite lookup_app_l by (rewrite length_insert; lia).
    apply list_lookup_insert_ne. auto.
  - rewrite length_app, length_insert. simpl. lia.
Qed.

Lemma store_kept_alloc l w lg d page :
  store_kept l w (mkWorld (<[l := d]> (heap w) ++ [page]) lg).
Proof.
  split; simpl.
  - rewrite length_app, length_insert. lia.
  - intros i Hi Hlt. rewrite lookup_app_l by (rewrite length_insert; lia).
    apply list_lookup_insert_ne. auto.
Qed.

Lemma store_kept_push l w lg page :
  store_kept l w (mkWorld (heap w ++ [page]) lg).
Proof.
  split; simpl.
  - rewrite length_app. lia.
  - intros i Hi Hlt. apply lookup_app_l. lia.
Qed.

Lemma _get_all_loop_trace server self E l fuel :
  forall results w d off r w',
    (l < length (heap w))%nat ->
    heap w !!! l = d ->
    d !! "offset" = Some off ->
    _get_all_loop server fuel self E l results w = (r, w') ->
    exists reqs,
      log w' = log w ++ reqs /\
      pagination_trace server E (log w) d reqs /\
      store_kept l w w' /\
      (fuel <> 0%nat -> reqs <> []).
Proof.
  induction fuel as [|fuel IH]; intros results w d off r w' Hl Hd Hoff Hrun.
  - inversion Hrun; subst. exists []. rewrite app_nil_r.
    split; [reflexivity|]. split; [constructor|]. split; [apply store_kept_refl|].
    intros H; contradiction.
  - rewrite (_get_all_loop_step server self E l results w fuel d off Hl Hd Hoff) in Hrun.
    set (req := sent self E (Some l) true w) in *.
    assert (Hlast : forall w1,
               log w1 = log w ++ [req] ->
               store_kept l w w1 ->
               exists reqs, log w1 = log w ++ reqs /\
                            pagination_trace server E (log w) d reqs /\
                            store_kept l w w1 /\
                            (S fuel <> 0%nat -> reqs <> [])).
    { intros w1 Hlog Hk. exists [req]. split; [exact Hlog|].
      split; [|split; [exact Hk | discriminate]].
      apply trace_last; [reflexivity | unfold req, sent; simpl; rewrite Hd; reflexivity]. }
    destruct (rbind (get_verdict E (server (log w ++ [req]))) page_verdict)
      as [[[items limit]|]| |] eqn:Hv.
    + destruct (py_add off limit) as [off'| |] eqn:Hadd.
      * apply IH with (d := advance d limit off') (off := off') in Hrun; simpl.
        -- destruct Hrun as (reqs & Hlog & Htr & Hk & _). simpl in Hlog, Htr.
           exists (req :: reqs). split; [rewrite Hlog, <- app_assoc; reflexivity|].
           split; [|split; [eapply store_kept_step; eauto | discriminate]].
           destruct (get_verdict E (server (log w ++ [req]))) as [j| |] eqn:Hg;
             try discriminate.
           eapply trace_more; eauto.
           unfold req, sent; simpl; rewrite Hd; reflexivity.
        -- rewrite length_app, length_insert. lia.
        -- rewrite lookup_total_app_l by (rewrite length_insert; lia).
           apply list_lookup_total_insert_eq. exact Hl.
        -- unfold advance. apply lookup_insert_eq.
      * inversion Hrun; subst. apply Hlast; [reflexivity | apply store_kept_alloc].
      * inversion Hrun; subst. apply Hlast; [reflexivity | apply store_kept_alloc].
    + inversion Hrun; subst. apply Hlast; [reflexivity | apply store_kept_push].
    + inversion Hrun; subst. apply Hlast; [reflexivity | apply store_kept_push].
    + inversion Hrun; subst. apply Hlast; [reflexivity | apply store_kept_push].
Qed.

Lemma prefix_of_kept (h h' : list Dict) :
  (length h <= length h')%nat ->
  (forall i, (i < length h)%nat -> h' !! i = h !! i) ->
  h `prefix_of` h'.
Proof.
  intros Hlen Hsame. exists (drop (length h) h').
  rewrite <- (take_drop (length h) h') at 1. f_equal.
  apply list_eq. intros i. destruct (decide (i < length h)%nat) as [Hi|Hi].
  - rewrite lookup_take_lt by exact Hi. apply Hsame, Hi.
  - rewrite lookup_take_ge by lia. rewrite lookup_ge_None_2 by lia. reflexivity.
Qed.

Lemma _get_all_trace server fuel self E q w :
  exists reqs,
    log (snd (_get_all server fuel self E q w)) = log w ++ reqs /\
    pagination_trace server E (log w) (start (snapshot w q)) reqs /\
    heap w `prefix_of` heap (snd (_get_all server fuel self E q w)) /\
    (fuel <> 0%nat -> reqs <> []).
Proof.
  rewrite _get_all_run.
  destruct (_get_all_loop server fuel self E (length (heap w)) []
              (mkWorld (heap w ++ [start (snapshot w q)]) (log w))) as [r w'] eqn:Hrun.
  eapply _get_all_loop_trace with (off := JNum 0) in Hrun; simpl.
  - destruct Hrun as (reqs & Hlog & Htr & (Hlen & Hfr) & Hne). simpl in *.
    exists reqs. split; [exact Hlog|]. split; [exact Htr|]. split; [|exact Hne].
    rewrite length_app in Hlen. simpl in Hlen. rewrite length_app in Hfr. simpl in Hfr.
    apply prefix_of_kept; [lia|].
    intros i Hi. rewrite Hfr by lia. apply lookup_app_l, Hi.
  - rewrite length_app. simpl. lia.
  - apply heap_fresh_total.
  - unfold start, advance. apply lookup_insert_eq.
Qed.

Lemma advance_advance (d : Dict) l o l' o' :
  advance (advance d l o) l' o' = advance d l' o'.
Proof.
  unfold advance. apply map_eq. intros k.
  rewrite !lookup_insert. repeat case_decide; congruence.
Qed.

Lemma page_verdict_limit j items limit :
  page_verdict j = Ret (Some (items, limit)) -> next_limit j = Ret limit.
Proof.
  unfold page_verdict.
  destruct (py_get j "data" (JArr [])) as [data| |]; simpl; try discriminate.
  destruct (py_len data) as [n| |]; simpl; try discriminate.
  destruct (n =? 0); try discriminate.
  destruct (py_get j "data" JNull) as [data'| |]; simpl; try discriminate.
  destruct (py_iter data') as [its| |]; simpl; try discriminate.
  destruct (next_limit j) as [lim| |]; simpl; try discriminate.
  intros H. inversion H. reflexivity.
Qed.

(** Every request of a paginated fetch carries the cursor on top of the
    dictionary the fetch started from, and the envelope flag. *)
Lemma trace_params server E hist d reqs :
  pagination_trace server E hist d reqs ->
  forall d0 l0 o0, d = advance d0 l0 o0 ->
    Forall (fun r => req_endpoint r = E /\
                     exists l o, req_params r = with_flag true (advance d0 l o)) reqs.
Proof.
  induction 1 as [hist d|hist d r HE Hp
                  |hist d r rest j items limit off off' HE Hp _ _ _ _ _ IH];
    intros d0 l0 o0 Hd; subst d.
  - constructor.
  - constructor; [|constructor]. split; [exact HE|]. exists l0, o0. exact Hp.
  - constructor.
    + split; [exact HE|]. exists l0, o0. exact Hp.
    + apply (IH d0 limit off'). apply advance_advance.
Qed.

Lemma trace_head server E hist d r rest :
  pagination_trace server E hist d (r :: rest) ->
  req_endpoint r = E /\ req_params r = with_flag true d.
Proof. intros H. inversion H; subst; auto. Qed.

(** Two successive requests of a fetch: the page that answered the first
    gives the limit of the second, and moves the offset by that limit. *)
Lemma trace_consecutive server E hist d reqs :
  pagination_trace server E hist d reqs ->
  forall i r r',
    reqs !! i = Some r -> reqs !! S i = Some r' ->
    exists j items limit off off',
      get_verdict E (server (hist ++ take (S i) reqs)) = Ret j /\
      page_verdict j = Ret (Some (items, limit)) /\
      req_params r !! "offset" = Some off /\
      py_add off limit = Ret off' /\
      req_params r' !! "limit" = Some limit /\
      req_params r' !! "offset" = Some off'.
Proof.
  induction 1 as [hist d|hist d r HE Hp
                  |hist d r rest j items limit off off' HE Hp Hg Hv Hoff Hadd Htr IH];
    intros i r1 r2 H1 H2.
  - discriminate.
  - destruct i; discriminate.
  - destruct i as [|i]; simpl in H1, H2.
    + inversion H1; subst r1. destruct rest as [|r' rest']; [discriminate|].
      simpl in H2. inversion H2; subst r2.
      apply trace_head in Htr. destruct Htr as [_ Hp'].
      exists j, items, limit, off, off'. simpl.
      repeat split; try assumption.
      * rewrite Hp. unfold with_flag. rewrite lookup_insert_ne by discriminate. exact Hoff.
      * rewrite Hp'. unfold with_flag, advance.
        rewrite lookup_insert_ne by discriminate.
        rewrite lookup_insert_ne by discriminate. apply lookup_insert_eq.
      * rewrite Hp'. unfold with_flag, advance.
        rewrite lookup_insert_ne by discriminate. apply lookup_insert_eq.
    + destruct (IH i r1 r2 H1 H2) as (j' & items' & limit' & o & o' & Hg' & Hrest).
      exists j', items', limit', o, o'. split; [|exact Hrest].
      rewrite <- Hg'. f_equal. f_equal.
      change (take (S (S i)) (r :: rest)) with (r :: take (S i) rest).
      rewrite <- app_assoc. reflexivity.
Qed.

(** ** Servers that follow a script *)

Lemma scripted_answers script : answers (scripted script) [] script.
Proof.
  intros i o reqs Hi Hlen. unfold scripted. simpl. rewrite Hlen.
  replace (S i - 1)%nat with i by lia. rewrite Hi. reflexivity.
Qed.

Lemma answers_tail server hist o script r :
  answers server hist (o :: script) -> answers server (hist ++ [r]) script.
Proof.
  intros H i o' reqs Hi Hlen. rewrite <- app_assoc. apply H with (i := S i).
  - exact Hi.
  - simpl. rewrite Hlen. reflexivity.
Qed.

Lemma answers_head server hist o script r :
  answers server hist (o :: script) -> server (hist ++ [r]) = o.
Proof. intros H. apply H with (i := 0%nat); reflexivity. Qed.

Lemma envelope_serves_page E items limit :
  items <> [] -> serves_page E (ok_response (envelope items limit)) (items, limit).
Proof.
  intros Hne. exists (envelope items limit). split; [reflexivity|].
  unfold page_verdict, envelope; simpl.
  destruct items as [|x items]; [contradiction|]. reflexivity.
Qed.

Lemma envelope_serves_empty E limit :
  serves_empty E (ok_response (envelope [] limit)).
Proof. exists (envelope [] limit). split; reflexivity. Qed.

(** ** Runs over scripted pages *)

(** [pages] are answered one after the other: the loop appends their
    records and goes on with the rest of its fuel. *)
Lemma _get_all_loop_pages server self E l script pages :
  Forall2 (serves_page E) script pages ->
  forall tail fuel results w off,
    (l < length (heap w))%nat ->
    (heap w !!! l) !! "offset" = Some (JNum off) ->
    answers server (log w) (script ++ tail) ->
    exists w2 reqs off2,
      _get_all_loop server (length pages + fuel) self E l results w =
        _get_all_loop server fuel self E l (results ++ concat (map fst pages)) w2 /\
      log w2 = log w ++ reqs /\
      length reqs = length pages /\
      (l < length (heap w2))%nat /\
      (heap w2 !!! l) !! "offset" = Some (JNum off2) /\
      answers server (log w2) tail.
Proof.
  induction 1 as [|o [items lim] script pages (j & Hg & Hv) _ IH];
    intros tail fuel results w off Hl Hoff Hans.
  - exists w, [], off. simpl. rewrite !app_nil_r. repeat split; auto.
  - simpl length. simpl Nat.add.
    rewrite (_get_all_loop_step server self E l results w _ _ _ Hl eq_refl Hoff).
    simpl in Hans. rewrite (answers_head _ _ _ _ _ Hans), Hg. simpl rbind.
    simpl in Hv. rewrite Hv. cbv beta iota delta [py_add].
    set (w1 := mkWorld _ _).
    destruct (IH tail fuel (results ++ items) w1 (off + lim)) as (w2 & reqs & off2 & Hrun & Hlog & Hlen & Hl2 & Hoff2 & Hans2).
    + unfold w1; simpl. rewrite length_app, length_insert. lia.
    + unfold w1; simpl. rewrite lookup_total_app_l by (rewrite length_insert; lia).
      rewrite list_lookup_total_insert_eq by exact Hl. apply lookup_insert_eq.
    + unfold w1; simpl. eapply answers_tail. exact Hans.
    + exists w2, (sent self E (Some l) true w :: reqs), off2.
      split; [|split; [|split; [|auto]]].
      * rewrite Hrun. simpl. rewrite <- app_assoc. reflexivity.
      * rewrite Hlog. unfold w1; simpl. rewrite <- app_assoc. reflexivity.
      * simpl. rewrite Hlen. reflexivity.
Qed.

(** The page that ends a run: an empty page returns the records gathered
    so far, a failed fetch raises its error; either way one more request
    is logged. *)
Lemma _get_all_loop_last server self E l o script fuel results w off :
  (l < length (heap w))%nat ->
  (heap w !!! l) !! "offset" = Some (JNum off) ->
  answers server (log w) (o :: script) ->
  exists w',
    log w' = log w ++ [sent self E (Some l) true w] /\
    (serves_empty E o ->
     _get_all_loop server (S fuel) self E l results w = (Ret results, w')) /\
    (forall e, get_verdict E o = Raise e ->
     _get_all_loop server (S fuel) self E l results w = (Raise e, w')).
Proof.
  intros Hl Hoff Hans.
  rewrite (_get_all_loop_step server self E l results w _ _ _ Hl eq_refl Hoff).
  rewrite (answers_head _ _ _ _ _ Hans).
  eexists (mkWorld _ _). split; [reflexivity|]. split.
  - intros (j & Hg & Hv). rewrite Hg. simpl. rewrite Hv. reflexivity.
  - intros e He. rewrite He. reflexivity.
Qed.

(** A whole fetch: [pages] with records, then the outcome [o]. *)
Lemma _get_all_pages server self E q script pages o fuel w :
  Forall2 (serves_page E) script pages ->
  answers server (log w) (script ++ [o]) ->
  (length pages < fuel)%nat ->
  exists w' reqs,
    log w' = log w ++ reqs /\
    length reqs = S (length pages) /\
    (serves_empty E o ->
     _get_all server fuel self E q w = (Ret (concat (map fst pages)), w')) /\
    (forall e, get_verdict E o = Raise e ->
     _get_all server fuel self E q w = (Raise e, w')).
Proof.
  intros Hpages Hans Hfuel. rewrite _get_all_run.
  replace fuel with (length pages + S (fuel - S (length pages)))%nat by lia.
  set (w0 := mkWorld _ _).
  destruct (_get_all_loop_pages server self E (length (heap w)) script pages Hpages
              [o] (S (fuel - S (length pages))) [] w0 0)
    as (w2 & reqs & off2 & Hrun & Hlog & Hlen & Hl2 & Hoff2 & Hans2).
  - unfold w0; simpl. rewrite length_app; simpl. lia.
  - unfold w0; simpl. rewrite heap_fresh_total. apply lookup_insert_eq.
  - exact Hans.
  - rewrite Hrun. simpl app.
    destruct (_get_all_loop_last server self E (length (heap w)) o []
                (fuel - S (length pages)) (concat (map fst pages)) w2 off2 Hl2 Hoff2 Hans2)
      as (w' & Hlog' & Hempty & Hfail).
    exists w', (reqs ++ [sent self E (Some (length (heap w))) true w2]).
    split; [|split; [|split]].
    + rewrite Hlog', Hlog. unfold w0; simpl. rewrite <- app_assoc. reflexivity.
    + rewrite length_app, Hlen. simpl. lia.
    + exact Hempty.
    + exact Hfail.
Qed.

(** ** The samples, evaluated *)

Example demo_client_stories :
  api_stories demo_client
  = Some "https://www.pivotaltracker.com/services/v5/projects/99/stories".
Proof. reflexivity. Qed.

Example demo_world_filter :
  heap demo_world !! api_filter demo_client
  = Some (<["date_format" := JStr "millis"]> (<["filter" := JNull]> ∅)).
Proof. reflexivity. Qed.

Example anon_client_stories : api_stories anon_client = None.
Proof. reflexivity. Qed.

(** ** The transport *)

Lemma get_verdict_delivers E o j : delivers o j -> get_verdict E o = Ret j.
Proof.
  intros (r & -> & Hs & Hb). simpl.
  replace ((200 <=? status_code r) && (status_code r <? 300)) with true.
  - rewrite Hb. reflexivity.
  - symmetry. apply andb_true_iff. rewrite Z.leb_le, Z.ltb_lt. exact Hs.
Qed.

(** C5, as the code has it.  For every response that [_get] receives:
    it returns the decoded body, as it is, exactly when the status is in
    [200, 300) and the body is JSON; when the status is outside [200, 300)
    it raises [ApiError] with the message [GET <endpoint> <status>]; and
    it raises no other [ApiError]. *)
Theorem C5_get_status server self E q env w r
    (Hnet : server (log w ++ [sent self E q env w]) = NetReturn (Some r)) :
  (forall j, fst (_get server self E q env w) = Ret j <->
             200 <= status_code r < 300 /\ body r = Some j) /\
  (~ 200 <= status_code r < 300 ->
   fst (_get server self E q env w)
   = Raise (ApiError ("GET " +:+ E +:+ " " +:+ str_of_int (status_code r)))) /\
  (forall msg, fst (_get server self E q env w) = Raise (ApiError msg) ->
               ~ 200 <= status_code r < 300 /\
               msg = "GET " +:+ E +:+ " " +:+ str_of_int (status_code r)).
Proof.
  rewrite _get_run, Hnet. simpl fst. unfold get_verdict.
  assert (Hrange : (200 <=? status_code r) && (status_code r <? 300) = true
                   <-> 200 <= status_code r < 300).
  { rewrite andb_true_iff, Z.leb_le, Z.ltb_lt. reflexivity. }
  destruct ((200 <=? status_code r) && (status_code r <? 300)) eqn:Hs.
  - assert (Hin : 200 <= status_code r < 300) by (apply Hrange; reflexivity).
    split; [|split].
    + intros j. destruct (body r) as [j'|].
      * split; [intros H; inversion H; auto | intros [_ H]; inversion H; reflexivity].
      * split; [discriminate | intros [_ H]; discriminate].
    + intros Hout. contradiction.
    + intros msg. destruct (body r); discriminate.
  - assert (Hout : ~ 200 <= status_code r < 300)
      by (intros H; apply Hrange in H; discriminate).
    split; [|split].
    + intros j. split; [discriminate | intros [H _]; contradiction].
    + reflexivity.
    + intros msg H. inversion H. auto.
Qed.

Lemma C5_get_status_witness :
  fst (_get (scripted [NetReturn (Some (mkResponse 404 None))])
         demo_client "E" None false demo_world)
  = Raise (ApiError "GET E 404").
Proof.
  refine (proj1 (proj2 (C5_get_status
            (scripted [NetReturn (Some (mkResponse 404 None))])
            demo_client "E" None false demo_world (mkResponse 404 None) _)) _).
  - reflexivity.
  - simpl. lia.
Defined.

(** C5, as the claim has it, fails: when [requests.get] hands back no
    response the guard [not resp] fires, but building the message reads
    [resp.status_code], so the error is an [AttributeError] and no
    [ApiError]; and a 200 whose body is not JSON is not returned. *)
Lemma C5_null_response_counterexample :
  fst (_get (scripted [NetReturn None]) demo_client "E" None false demo_world)
  = Raise AttributeError /\
  fst (_get (scripted [NetReturn (Some (mkResponse 200 None))])
         demo_client "E" None false demo_world)
  = Raise ValueError.
Proof. split; reflexivity. Qed.

(** ** The identifier guards *)

Lemma verify_project_unset self name w :
  py_truthy (project_id self) = false ->
  _verify_project_id_exists self name w
  = (Raise (ApiError ("Project ID not set on API connection and is required by "
                      +:+ name +:+ "().")), w).
Proof. intros H. unfold _verify_project_id_exists. rewrite H. reflexivity. Qed.

Lemma verify_account_unset self name w :
  py_truthy (account_id self) = false ->
  _verify_account_id_exists self name w
  = (Raise (ApiError ("Account ID not set on API connection and is required by "
                      +:+ name +:+ "().")), w).
Proof. intros H. unfold _verify_account_id_exists. rewrite H. reflexivity. Qed.

Lemma verify_project_set self name w :
  py_truthy (project_id self) = true ->
  _verify_project_id_exists self name w = (Ret tt, w).
Proof. intros H. unfold _verify_project_id_exists. rewrite H. reflexivity. Qed.

Lemma verify_account_set self name w :
  py_truthy (account_id self) = true ->
  _verify_account_id_exists self name w = (Ret tt, w).
Proof. intros H. unfold _verify_account_id_exists. rewrite H. reflexivity. Qed.

(** C6.  Whatever public method is called, when the identifier it requires
    is [None] the call raises the [ApiError] that names the guarded method,
    and leaves the world as it was: no GET has been logged. *)
Theorem C6_guard_before_network server py_repr py_field fuel self m w
    (Hunset : ident_of self (requires m) = JNull) :
  invoke server py_repr py_field fuel self m w
  = (Raise (ApiError (kind_label (requires m)
                      +:+ " ID not set on API connection and is required by "
                      +:+ guard_name m +:+ "().")), w)
  /\ log (snd (invoke server py_repr py_field fuel self m w)) = log w.
Proof.
  assert (Hcall : invoke server py_repr py_field fuel self m w
                  = (Raise (ApiError (kind_label (requires m)
                      +:+ " ID not set on API connection and is required by "
                      +:+ guard_name m +:+ "().")), w)).
  { destruct m; simpl in Hunset;
      unfold invoke, as_list, get_stories_by_filter, get_stories_by_label,
        get_story_activities, get_project_memberships, get_account_memberships,
        get_integrations, get_integration, get_integration_stories,
        get_all_integration_stories, get_integrations;
      unfold bind;
      rewrite ?verify_project_unset, ?verify_account_unset
        by (rewrite Hunset; reflexivity);
      reflexivity. }
  rewrite Hcall. split; reflexivity.
Qed.

Lemma C6_guard_before_network_witness :
  invoke (scripted []) no_repr no_field 5 anon_client (GetStoriesByFilter (JStr "state:started"))
    anon_world
  = (Raise (ApiError
       "Project ID not set on API connection and is required by get_stories_by_filter()."),
     anon_world)
  /\ log (snd (invoke (scripted []) no_repr no_field 5 anon_client
                 (GetStoriesByFilter (JStr "state:started")) anon_world)) = [].
Proof.
  apply (C6_guard_before_network (scripted []) no_repr no_field 5 anon_client
           (GetStoriesByFilter (JStr "state:started")) anon_world).
  reflexivity.
Defined.

(** ** Caller-owned dictionaries *)

Lemma loop_requests_params server E hist d0 reqs :
  pagination_trace server E hist (start d0) reqs ->
  Forall (fun r => req_endpoint r = E /\
                   exists limit offset,
                     req_params r
                     = <["envelope" := JStr "true"]>
                         (<["offset" := offset]> (<["limit" := limit]> d0))) reqs.
Proof. intros H. exact (trace_params _ _ _ _ _ H d0 _ _ eq_refl). Qed.

Lemma prefix_snapshot w w' q :
  (forall l, q = Some l -> (l < length (heap w))%nat) ->
  heap w `prefix_of` heap w' ->
  snapshot w' q = snapshot w q.
Proof.
  intros Hq [ext Hext]. destruct q as [l|]; [|reflexivity]. simpl.
  rewrite Hext. apply lookup_total_app_l. apply Hq. reflexivity.
Qed.

(** C7.  [_get] and [_get_all] only add to the store: every dictionary that
    existed before the call is there unchanged after it, also when the call
    raises; so the caller's querystring, when one is given, reads after the
    call as it read before.  The one request of [_get] carries the caller's
    mapping, with [envelope] added when asked; every request of [_get_all]
    carries the caller's mapping with [limit], [offset] and [envelope] set
    on top. *)
Theorem C7_querystring_not_mutated server self E q env fuel w
    (Hq : forall l, q = Some l -> (l < length (heap w))%nat) :
  (heap w `prefix_of` heap (snd (_get server self E q env w)) /\
   snapshot (snd (_get server self E q env w)) q = snapshot w q /\
   exists req,
     log (snd (_get server self E q env w)) = log w ++ [req] /\
     req_params req = (if env then <["envelope" := JStr "true"]> (snapshot w q)
                       else snapshot w q)) /\
  (heap w `prefix_of` heap (snd (_get_all server fuel self E q w)) /\
   snapshot (snd (_get_all server fuel self E q w)) q = snapshot w q /\
   exists reqs,
     log (snd (_get_all server fuel self E q w)) = log w ++ reqs /\
     Forall (fun r => exists limit offset,
               req_params r
               = <["envelope" := JStr "true"]>
                   (<["offset" := offset]> (<["limit" := limit]> (snapshot w q)))) reqs).
Proof.
  split.
  - assert (Hpre : heap w `prefix_of` heap (snd (_get server self E q env w))).
    { rewrite _get_run. simpl. eexists. reflexivity. }
    split; [exact Hpre|]. split; [apply prefix_snapshot; assumption|].
    rewrite _get_run. simpl. eexists. split; reflexivity.
  - destruct (_get_all_trace server fuel self E q w) as (reqs & Hlog & Htr & Hpre & _).
    split; [exact Hpre|]. split; [apply prefix_snapshot; assumption|].
    exists reqs. split; [exact Hlog|].
    apply loop_requests_params in Htr.
    eapply Forall_impl; [exact Htr|]. intros r [_ H]. exact H.
Qed.

Lemma C7_querystring_not_mutated_witness :
  snapshot
    (snd (_get_all
            (scripted [ok_response (envelope [JStr "a"] 1); ok_response (envelope [] 1)])
            5 demo_client "E" (Some (api_filter demo_client)) demo_world))
    (Some (api_filter demo_client))
  = api_filter_default.
Proof.
  refine (proj1 (proj2 (proj2 (C7_querystring_not_mutated
            (scripted [ok_response (envelope [JStr "a"] 1); ok_response (envelope [] 1)])
            demo_client "E" (Some (api_filter demo_client)) true 5 demo_world _)))).
  intros l Hl. inversion Hl. vm_compute. lia.
Defined.

(** ** What a call logs *)

Lemma logs_only_quiet {A} P (m : M A) w :
  log (snd (m w)) = log w -> logs_only P m w.
Proof. intros H. exists []. rewrite app_nil_r. auto. Qed.

Lemma logs_only_bind {A B} P (m : M A) (k : A -> M B) w :
  logs_only P m w ->
  (forall a, fst (m w) = Ret a -> logs_only P (k a) (snd (m w))) ->
  logs_only P (bind m k) w.
Proof.
  intros (reqs & Hlog & HP) Hk. unfold logs_only, bind.
  destruct (m w) as [[a|e|] w1]; simpl in *.
  - destruct (Hk a eq_refl) as (reqs' & Hlog' & HP').
    exists (reqs ++ reqs'). rewrite Hlog', Hlog, app_assoc.
    split; [reflexivity | apply Forall_app; auto].
  - exists reqs. auto.
  - exists reqs. auto.
Qed.

Lemma logs_only_impl {A} (P Q : Request -> Prop) (m : M A) w :
  (forall r, P r -> Q r) -> logs_only P m w -> logs_only Q m w.
Proof.
  intros HPQ (reqs & Hlog & HP). exists reqs. split; [exact Hlog|].
  eapply Forall_impl; eauto.
Qed.

Lemma logs_only_get server self E q env w :
  logs_only (fun r => req_params r = with_flag env (snapshot w q))
    (_get server self E q env) w.
Proof.
  unfold logs_only. rewrite _get_run. simpl. eexists. split; [reflexivity|].
  constructor; [reflexivity | constructor].
Qed.

Lemma logs_only_get_all server fuel self E q w :
  logs_only (fun r => exists limit offset,
               req_params r
               = <["envelope" := JStr "true"]>
                   (<["offset" := offset]> (<["limit" := limit]> (snapshot w q))))
    (_get_all server fuel self E q) w.
Proof.
  destruct (_get_all_trace server fuel self E q w) as (reqs & Hlog & Htr & _).
  exists reqs. split; [exact Hlog|].
  apply loop_requests_params in Htr.
  eapply Forall_impl; [exact Htr|]. intros r [_ H]. exact H.
Qed.

Lemma logs_only_verify_project P self name w :
  logs_only P (_verify_project_id_exists self name) w.
Proof.
  apply logs_only_quiet. unfold _verify_project_id_exists.
  destruct (negb _); reflexivity.
Qed.

Lemma logs_only_verify_account P self name w :
  logs_only P (_verify_account_id_exists self name) w.
Proof.
  apply logs_only_quiet. unfold _verify_account_id_exists.
  destruct (negb _); reflexivity.
Qed.

Lemma verify_project_world self name w :
  snd (_verify_project_id_exists self name w) = w.
Proof. unfold _verify_project_id_exists. destruct (negb _); reflexivity. Qed.

Lemma verify_account_world self name w :
  snd (_verify_account_id_exists self name w) = w.
Proof. unfold _verify_account_id_exists. destruct (negb _); reflexivity. Qed.

Lemma logs_only_attr P a w : logs_only P (attr a) w.
Proof. apply logs_only_quiet. destruct a; reflexivity. Qed.

Lemma attr_world a w : snd (attr a w) = w.
Proof. destruct a; reflexivity. Qed.

Lemma logs_only_lift {A} P (r : res A) w : logs_only P (lift r) w.
Proof. apply logs_only_quiet. reflexivity. Qed.

(** A fetch with no querystring sends no parameter at all. *)
Lemma logs_only_bare_get server self E w :
  logs_only (fun r => req_params r = ∅) (_get server self E None false) w.
Proof. apply (logs_only_get server self E None false w). Qed.

Lemma logs_only_integration_stories server py_repr py_field self id w :
  logs_only (fun r => req_params r = exclude_linked)
    (get_integration_stories server py_repr py_field self id) w.
Proof.
  unfold get_integration_stories.
  apply logs_only_bind; [apply logs_only_verify_project|]. intros _ _.
  rewrite verify_project_world.
  apply logs_only_bind; [apply logs_only_quiet; reflexivity|]. intros l Hl.
  simpl in Hl. inversion Hl; subst l. simpl snd.
  apply logs_only_bind; [apply logs_only_attr|]. intros t _. rewrite attr_world.
  apply logs_only_bind; [apply logs_only_lift|]. intros uri _.
  eapply logs_only_impl; [|apply logs_only_get].
  simpl. intros r ->. rewrite heap_fresh_total. reflexivity.
Qed.

Lemma logs_only_integration_stories_loop server py_repr py_field self integrations :
  forall results w,
    logs_only (fun r => req_params r = exclude_linked)
      (integration_stories_loop server py_repr py_field self integrations results) w.
Proof.
  induction integrations as [|i rest IH]; intros results w; simpl.
  - apply logs_only_quiet. reflexivity.
  - apply logs_only_bind; [apply logs_only_lift|]. intros id _.
    apply logs_only_bind; [apply logs_only_integration_stories|]. intros st _.
    apply logs_only_bind; [apply logs_only_lift|]. intros items _.
    apply IH.
Qed.

Ltac logs_step :=
  first
    [ apply logs_only_verify_project
    | apply logs_only_verify_account
    | apply logs_only_attr
    | apply logs_only_lift
    | apply logs_only_quiet; reflexivity ].

Lemma logs_only_as_list P (m : M (list json)) w :
  logs_only P m w -> logs_only P (as_list m) w.
Proof.
  intros H. unfold as_list. apply logs_only_bind; [exact H|].
  intros a _. apply logs_only_quiet. reflexivity.
Qed.

Lemma enveloped_params (d : Dict) limit offset :
  (<["envelope" := JStr "true"]> (<["offset" := offset]> (<["limit" := limit]> d)))
    !! "envelope" = Some (JStr "true").
Proof. apply lookup_insert_eq. Qed.

Lemma logs_only_invoke server py_repr py_field fuel self m w :
  logs_only (fun r => req_params r !! "envelope" = envelope_param m)
    (invoke server py_repr py_field fuel self m) w.
Proof.
  assert (Hpag : forall E q w1,
             logs_only (fun r => req_params r !! "envelope" = Some (JStr "true"))
               (_get_all server fuel self E q) w1).
  { intros E q w1. eapply logs_only_impl; [|apply logs_only_get_all].
    simpl. intros r (limit & offset & ->). apply enveloped_params. }
  assert (Hbare : forall E w1,
             logs_only (fun r => req_params r !! "envelope" = None)
               (_get server self E None false) w1).
  { intros E w1. eapply logs_only_impl; [|apply logs_only_bare_get].
    simpl. intros r ->. apply lookup_empty. }
  assert (Hexcl : forall id w1,
             logs_only (fun r => req_params r !! "envelope" = None)
               (get_integration_stories server py_repr py_field self id) w1).
  { intros id w1. eapply logs_only_impl; [|apply logs_only_integration_stories].
    simpl. intros r ->. reflexivity. }
  destruct m; unfold invoke, envelope_param; simpl is_paginated; cbv iota.
  - apply logs_only_as_list. unfold get_stories_by_filter.
    do 4 (apply logs_only_bind; [logs_step|]; intros ? _). apply Hpag.
  - apply logs_only_as_list. unfold get_stories_by_label.
    do 3 (apply logs_only_bind; [logs_step|]; intros ? _). apply Hpag.
  - unfold get_story_activities.
    do 3 (apply logs_only_bind; [logs_step|]; intros ? _). apply Hbare.
  - unfold get_project_memberships.
    do 2 (apply logs_only_bind; [logs_step|]; intros ? _). apply Hbare.
  - unfold get_account_memberships.
    do 2 (apply logs_only_bind; [logs_step|]; intros ? _). apply Hbare.
  - unfold get_integrations.
    do 2 (apply logs_only_bind; [logs_step|]; intros ? _). apply Hbare.
  - unfold get_integration.
    do 3 (apply logs_only_bind; [logs_step|]; intros ? _). apply Hbare.
  - apply Hexcl.
  - apply logs_only_as_list. unfold get_all_integration_stories, get_integrations.
    apply logs_only_bind.
    { do 2 (apply logs_only_bind; [logs_step|]; intros ? _). apply Hbare. }
    intros ? _. apply logs_only_bind; [logs_step|]. intros ? _.
    eapply logs_only_impl; [|apply logs_only_integration_stories_loop].
    simpl. intros r ->. reflexivity.
Qed.

(** ** The envelope flag and the cursor *)

Lemma _get_all_first_request server self E q fuel w :
  exists r rest,
    log (snd (_get_all server (S fuel) self E q w)) = log w ++ r :: rest /\
    req_params r !! "offset" = Some (JNum 0) /\
    req_params r !! "limit" = Some (JNum 1000) /\
    Forall (fun r' => req_params r' !! "envelope" = Some (JStr "true")) (r :: rest).
Proof.
  destruct (_get_all_trace server (S fuel) self E q w) as (reqs & Hlog & Htr & _ & Hne).
  destruct reqs as [|r rest]; [exfalso; apply Hne; [discriminate | reflexivity]|].
  exists r, rest. split; [exact Hlog|].
  destruct (trace_head _ _ _ _ _ _ Htr) as [_ Hp].
  split; [|split].
  - rewrite Hp. unfold with_flag, start, advance.
    rewrite lookup_insert_ne by discriminate. apply lookup_insert_eq.
  - rewrite Hp. unfold with_flag, start, advance.
    rewrite lookup_insert_ne by discriminate.
    rewrite lookup_insert_ne by discriminate. apply lookup_insert_eq.
  - apply loop_requests_params in Htr.
    eapply Forall_impl; [exact Htr|].
    simpl. intros r' (_ & limit & offset & ->). apply enveloped_params.
Qed.

(** C8.  A paginated fetch that is followed for at least one iteration
    sends a first request with [offset] 0 and [limit] 1000, from whatever
    world it starts, and all its requests carry [envelope=true]; the same
    holds of a second fetch made after the first, whose cursor has moved;
    a direct [_get] with the default flag sends the caller's mapping and
    nothing else; and of the public methods, the paginated ones send
    [envelope=true] with every request and the others never send
    [envelope]. *)
Theorem C8_envelope_and_fresh_cursor server py_repr py_field self E q fuel E2 q2 fuel2 w m :
  (exists r rest,
     log (snd (_get_all server (S fuel) self E q w)) = log w ++ r :: rest /\
     req_params r !! "offset" = Some (JNum 0) /\
     req_params r !! "limit" = Some (JNum 1000) /\
     Forall (fun r' => req_params r' !! "envelope" = Some (JStr "true")) (r :: rest)) /\
  (let w1 := snd (_get_all server (S fuel) self E q w) in
   exists r rest,
     log (snd (_get_all server (S fuel2) self E2 q2 w1)) = log w1 ++ r :: rest /\
     req_params r !! "offset" = Some (JNum 0) /\
     req_params r !! "limit" = Some (JNum 1000) /\
     Forall (fun r' => req_params r' !! "envelope" = Some (JStr "true")) (r :: rest)) /\
  (exists req,
     log (snd (_get server self E q false w)) = log w ++ [req] /\
     req_params req = snapshot w q) /\
  (exists reqs,
     log (snd (invoke server py_repr py_field fuel self m w)) = log w ++ reqs /\
     Forall (fun r => req_params r !! "envelope"
                      = if is_paginated m then Some (JStr "true") else None) reqs).
Proof.
  split; [|split; [|split]].
  - apply _get_all_first_request.
  - apply _get_all_first_request.
  - rewrite _get_run. simpl. eexists. split; reflexivity.
  - apply (logs_only_invoke server py_repr py_field fuel self m w).
Qed.

Example cursor_after_an_earlier_fetch :
  let pages := [ok_response (envelope [JStr "a"] 1); ok_response (envelope [] 1);
                ok_response (envelope [JStr "b"] 1); ok_response (envelope [] 1)] in
  let w1 := snd (_get_all (scripted pages) 5 demo_client "E" None demo_world) in
  map (fun r => (offset_of r, limit_of r))
    (log (snd (_get_all (scripted pages) 5 demo_client "E" None w1)))
  = [(Some (JNum 0), Some (JNum 1000)); (Some (JNum 1), Some (JNum 1));
     (Some (JNum 0), Some (JNum 1000)); (Some (JNum 1), Some (JNum 1))].
Proof. reflexivity. Qed.

(** ** The shared filter *)

Lemma get_stories_by_filter_run server fuel self f w uri :
  py_truthy (project_id self) = true ->
  api_stories self = Some uri ->
  get_stories_by_filter server fuel self f w
  = _get_all server fuel self uri (Some (length (heap w)))
      (mkWorld (heap w ++ [<["filter" := f]> (heap w !!! api_filter self)]) (log w)).
Proof.
  intros Hid Huri.
  unfold get_stories_by_filter, _verify_project_id_exists, dict_copy, dict_read,
    dict_new, dict_setitem, attr, bind, ret.
  rewrite Hid, Huri. simpl. rewrite heap_fresh_total, heap_fresh_insert. reflexivity.
Qed.

Lemma get_stories_by_filter_frame server fuel self f w d :
  heap w !! api_filter self = Some d ->
  heap (snd (get_stories_by_filter server fuel self f w)) !! api_filter self = Some d /\
  exists reqs,
    log (snd (get_stories_by_filter server fuel self f w)) = log w ++ reqs /\
    Forall (fun r => forall k, k <> "envelope" -> k <> "offset" -> k <> "limit" ->
                       req_params r !! k = <["filter" := f]> d !! k) reqs /\
    (forall uri,
       py_truthy (project_id self) = true -> api_stories self = Some uri ->
       fuel <> 0%nat ->
       reqs <> [] /\ Forall (fun r => req_endpoint r = uri) reqs).
Proof.
  intros Hd.
  destruct (py_truthy (project_id self)) eqn:Hid.
  - destruct (api_stories self) as [uri|] eqn:Huri.
    + rewrite (get_stories_by_filter_run server fuel self f w uri Hid Huri).
      set (w1 := mkWorld _ _).
      destruct (_get_all_trace server fuel self uri (Some (length (heap w))) w1)
        as (reqs & Hlog & Htr & Hpre & Hne).
      apply loop_requests_params in Htr.
      split.
      * eapply prefix_lookup_Some; [|exact Hpre]. unfold w1; simpl.
        rewrite lookup_app_l by (eapply lookup_lt_Some; eauto). exact Hd.
      * exists reqs. split; [exact Hlog|]. split.
        -- eapply Forall_impl; [exact Htr|].
           simpl. intros r (_ & limit & offset & ->) k H1 H2 H3.
           rewrite !lookup_insert_ne by congruence.
           unfold w1; simpl. rewrite heap_fresh_total.
           rewrite (list_lookup_total_correct _ _ _ Hd).
           destruct (decide ("filter" = k)) as [<-|Hk].
           ++ rewrite !lookup_insert_eq. reflexivity.
           ++ rewrite !lookup_insert_ne by congruence. reflexivity.
        -- intros uri' _ Huri' Hfuel. inversion Huri'; subst uri'.
           split; [exact (Hne Hfuel)|].
           eapply Forall_impl; [exact Htr|]. simpl. intros r (HE & _). exact HE.
    + unfold get_stories_by_filter, _verify_project_id_exists, dict_copy, dict_read,
        dict_new, dict_setitem, attr, bind, ret, raise.
      rewrite Hid, Huri. simpl. split.
      * rewrite heap_fresh_insert.
        rewrite lookup_app_l by (eapply lookup_lt_Some; eauto). exact Hd.
      * exists []. rewrite app_nil_r. split; [reflexivity|]. split; [constructor|].
        intros uri' _ Huri' _. discriminate.
  - unfold get_stories_by_filter, bind.
    rewrite verify_project_unset by exact Hid. simpl. split; [exact Hd|].
    exists []. rewrite app_nil_r. split; [reflexivity|]. split; [constructor|].
    intros uri' Hid' _ _. discriminate.
Qed.

(** [__init__] leaves in [api_filter] the dictionary that C9 starts from. *)
Lemma init_sets_api_filter py_repr api_token account project root w :
  exists c,
    fst (__init__ py_repr api_token account project root w) = Ret c /\
    heap (snd (__init__ py_repr api_token account project root w)) !! api_filter c
    = Some api_filter_default.
Proof.
  unfold __init__, dict_new, bind, ret. simpl. eexists. split; [reflexivity|].
  simpl. apply list_lookup_middle. rewrite length_app. reflexivity.
Qed.

(** C9.  When [api_filter] holds what [__init__] put there, it still does
    after [get_stories_by_filter], however the call ends.  When the project
    identifier and the URL of the stories are set, the call sends at least
    one request, every request it sends goes to that URL, and every one
    carries [date_format='millis'] and the filter the call was given.  The
    same holds of a second call, made after the first with another filter:
    its requests carry that other filter.  (The call sends a request as soon
    as the loop is followed for one turn.) *)
Theorem C9_api_filter_not_mutated server fuel self pivotal_filter w
    (Hinit : heap w !! api_filter self = Some api_filter_default) :
  let w' := snd (get_stories_by_filter server fuel self pivotal_filter w) in
  heap w' !! api_filter self = Some api_filter_default /\
  (exists reqs,
     log w' = log w ++ reqs /\
     Forall (fun r => req_params r !! "date_format" = Some (JStr "millis") /\
                      req_params r !! "filter" = Some pivotal_filter) reqs /\
     (forall uri,
        py_truthy (project_id self) = true -> api_stories self = Some uri ->
        fuel <> 0%nat ->
        reqs <> [] /\ Forall (fun r => req_endpoint r = uri) reqs)) /\
  (forall fuel2 filter2,
     exists reqs2,
       log (snd (get_stories_by_filter server fuel2 self filter2 w')) = log w' ++ reqs2 /\
       Forall (fun r => req_params r !! "date_format" = Some (JStr "millis") /\
                        req_params r !! "filter" = Some filter2) reqs2 /\
       (forall uri,
          py_truthy (project_id self) = true -> api_stories self = Some uri ->
          fuel2 <> 0%nat ->
          reqs2 <> [] /\ Forall (fun r => req_endpoint r = uri) reqs2)).
Proof.
  assert (Hreq : forall fl w0 fuel0,
             heap w0 !! api_filter self = Some api_filter_default ->
             exists reqs,
               log (snd (get_stories_by_filter server fuel0 self fl w0)) = log w0 ++ reqs /\
               Forall (fun r => req_params r !! "date_format" = Some (JStr "millis") /\
                                req_params r !! "filter" = Some fl) reqs /\
               (forall uri,
                  py_truthy (project_id self) = true -> api_stories self = Some uri ->
                  fuel0 <> 0%nat ->
                  reqs <> [] /\ Forall (fun r => req_endpoint r = uri) reqs)).
  { intros fl w0 fuel0 H0.
    destruct (get_stories_by_filter_frame server fuel0 self fl w0 _ H0)
      as (_ & reqs & Hlog & Hall & Hsent).
    exists reqs. split; [exact Hlog|]. split; [|exact Hsent].
    eapply Forall_impl; [exact Hall|]. simpl. intros r Hr.
    split; rewrite Hr by discriminate; reflexivity. }
  destruct (get_stories_by_filter_frame server fuel self pivotal_filter w _ Hinit)
    as (Hkept & _).
  intros w'. split; [exact Hkept|]. split; [apply Hreq; exact Hinit|].
  intros fuel2 filter2. apply Hreq. exact Hkept.
Qed.

Lemma C9_api_filter_not_mutated_witness :
  let server := scripted [ok_response (envelope [JStr "s1"] 1);
                          ok_response (envelope [] 1)] in
  let w' := snd (get_stories_by_filter server 5 demo_client (JStr "state:started")
                   demo_world) in
  heap w' !! api_filter demo_client = Some api_filter_default /\
  (exists reqs,
     log w' = log demo_world ++ reqs /\ reqs <> [] /\
     Forall (fun r =>
               req_endpoint r
               = "https://www.pivotaltracker.com/services/v5/projects/99/stories" /\
               req_params r !! "date_format" = Some (JStr "millis") /\
               req_params r !! "filter" = Some (JStr "state:started")) reqs) /\
  (exists reqs2,
     log (snd (get_stories_by_filter server 5 demo_client (JStr "label:x") w'))
     = log w' ++ reqs2 /\ reqs2 <> [] /\
     Forall (fun r => req_params r !! "filter" = Some (JStr "label:x")) reqs2).
Proof.
  intros server w'.
  destruct (C9_api_filter_not_mutated server 5 demo_client (JStr "state:started")
              demo_world eq_refl)
    as (Hkept & (reqs & Hlog & Hall & Hsent) & Hnext).
  destruct (Hsent "https://www.pivotaltracker.com/services/v5/projects/99/stories"
              eq_refl eq_refl ltac:(discriminate)) as (Hne & Hurl).
  destruct (Hnext 5%nat (JStr "label:x")) as (reqs2 & Hlog2 & Hall2 & Hsent2).
  destruct (Hsent2 "https://www.pivotaltracker.com/services/v5/projects/99/stories"
              eq_refl eq_refl ltac:(discriminate)) as (Hne2 & _).
  split; [exact Hkept|]. split.
  - exists reqs. split; [exact Hlog|]. split; [exact Hne|].
    apply Forall_forall. intros r Hr.
    split; [exact (proj1 (Forall_forall _ _) Hurl r Hr)|].
    exact (proj1 (Forall_forall _ _) Hall r Hr).
  - exists reqs2. split; [exact Hlog2|]. split; [exact Hne2|].
    eapply Forall_impl; [exact Hall2|]. simpl. intros r (_ & Hf). exact Hf.
Defined.

(** Two searches in a row on one client: the second sends its own filter,
    the shared dictionary is as [__init__] left it. *)
Example successive_searches :
  let server := scripted [ok_response (envelope [JStr "s1"] 1);
                          ok_response (envelope [] 1);
                          ok_response (envelope [] 1)] in
  let w1 := snd (get_stories_by_filter server 5 demo_client (JStr "state:started")
                   demo_world) in
  let w2 := snd (get_stories_by_filter server 5 demo_client (JStr "label:x") w1) in
  map (fun r => req_params r !! "filter") (log w2)
  = [Some (JStr "state:started"); Some (JStr "state:started"); Some (JStr "label:x")] /\
  heap w2 !! api_filter demo_client = Some api_filter_default.
Proof. split; reflexivity. Qed.

(** ** Termination of the paginated fetch *)

Lemma full_pages_count L pages :
  0 < L -> full_pages L pages ->
  Z.of_nat (length pages) = ceil_div (Z.of_nat (length (records pages))) L.
Proof.
  intros HL. unfold ceil_div, records.
  induction pages as [|p rest IH]; intros Hfull.
  - simpl. symmetry. apply Z.div_small. lia.
  - destruct Hfull as [_ Hfull]. destruct rest as [|p' rest'].
    + simpl. rewrite app_nil_r.
      replace (Z.of_nat (length (fst p)) + L - 1)
        with (Z.of_nat (length (fst p)) - 1 + 1 * L) by lia.
      rewrite Z.div_add by lia. rewrite Z.div_small by lia. reflexivity.
    + destruct Hfull as [Hp Hrest]. specialize (IH Hrest).
      change (length (p :: p' :: rest')) with (S (length (p' :: rest'))).
      rewrite Nat2Z.inj_succ, IH.
      change (concat (map fst (p :: p' :: rest')))
        with (fst p ++ concat (map fst (p' :: rest'))).
      rewrite length_app, Nat2Z.inj_add, Hp.
      replace (L + Z.of_nat (length (concat (map fst (p' :: rest')))) + L - 1)
        with (Z.of_nat (length (concat (map fst (p' :: rest')))) + L - 1 + 1 * L) by lia.
      rewrite Z.div_add by lia. lia.
Qed.

Lemma answers_last server hist script o reqs :
  answers server hist (script ++ [o]) ->
  length reqs = S (length script) ->
  server (hist ++ reqs) = o.
Proof.
  intros Hans Hlen. apply Hans with (i := length script); [|exact Hlen].
  rewrite lookup_app_r by lia. rewrite Nat.sub_diag. reflexivity.
Qed.

(** C1, as the code has it.  When the server answers with pages that hold
    records and then with an empty page, [_get_all], followed for more
    iterations than there are such pages, returns the records of the pages
    in order and has sent one GET per page plus one, the last of them
    answered by the empty page.  The number of GETs is
    [ceil (N / L) + 1] when the server reports the limit [L] and fills
    every page but the last.  The two scenarios of the specification
    follow. *)
Theorem C1_pages_then_empty_page :
  (forall server self E q w fuel script pages last,
      Forall2 (serves_page E) script pages ->
      serves_empty E last ->
      answers server (log w) (script ++ [last]) ->
      (length pages < fuel)%nat ->
      exists w' reqs,
        _get_all server fuel self E q w = (Ret (records pages), w') /\
        log w' = log w ++ reqs /\
        length reqs = S (length pages) /\
        server (log w') = last /\
        (forall L, 0 < L -> full_pages L pages ->
           Z.of_nat (length reqs)
           = ceil_div (Z.of_nat (length (records pages))) L + 1)) /\
  (forall server self E q w fuel a b c,
      answers server (log w)
        [ok_response (envelope [a; b] 2); ok_response (envelope [c] 2);
         ok_response (envelope [] 2)] ->
      (3 <= fuel)%nat ->
      exists w' reqs,
        _get_all server fuel self E q w = (Ret [a; b; c], w') /\
        log w' = log w ++ reqs /\ length reqs = 3%nat) /\
  (forall server self E q w fuel first,
      serves_empty E first ->
      answers server (log w) [first] ->
      (1 <= fuel)%nat ->
      exists w' r,
        _get_all server fuel self E q w = (Ret [], w') /\
        log w' = log w ++ [r]).
Proof.
  assert (Hgen : forall server self E q w fuel script pages last,
      Forall2 (serves_page E) script pages ->
      serves_empty E last ->
      answers server (log w) (script ++ [last]) ->
      (length pages < fuel)%nat ->
      exists w' reqs,
        _get_all server fuel self E q w = (Ret (records pages), w') /\
        log w' = log w ++ reqs /\
        length reqs = S (length pages) /\
        server (log w') = last).
  { intros server self E q w fuel script pages last Hpages Hlast Hans Hfuel.
    destruct (_get_all_pages server self E q script pages last fuel w Hpages Hans Hfuel)
      as (w' & reqs & Hlog & Hlen & Hempty & _).
    exists w', reqs. split; [apply Hempty, Hlast|]. split; [exact Hlog|].
    split; [exact Hlen|].
    rewrite Hlog. eapply answers_last; [exact Hans|].
    rewrite Hlen. f_equal. symmetry. eapply Forall2_length. exact Hpages. }
  split; [|split].
  - intros server self E q w fuel script pages last Hpages Hlast Hans Hfuel.
    destruct (Hgen server self E q w fuel script pages last Hpages Hlast Hans Hfuel)
      as (w' & reqs & Hrun & Hlog & Hlen & Hsrv).
    exists w', reqs. repeat (split; [assumption|]).
    intros L HL Hfull. rewrite Hlen, Nat2Z.inj_succ.
    rewrite (full_pages_count L pages HL Hfull). lia.
  - intros server self E q w fuel a b c Hans Hfuel.
    destruct (Hgen server self E q w fuel
                [ok_response (envelope [a; b] 2); ok_response (envelope [c] 2)]
                [([a; b], 2); ([c], 2)] (ok_response (envelope [] 2)))
      as (w' & reqs & Hrun & Hlog & Hlen & _).
    + repeat constructor; apply envelope_serves_page; discriminate.
    + apply envelope_serves_empty.
    + exact Hans.
    + simpl. lia.
    + exists w', reqs. auto.
  - intros server self E q w fuel first Hfirst Hans Hfuel.
    destruct (Hgen server self E q w fuel [] [] first)
      as (w' & reqs & Hrun & Hlog & Hlen & _).
    + constructor.
    + exact Hfirst.
    + exact Hans.
    + simpl. lia.
    + destruct reqs as [|r [|r' reqs]]; try discriminate.
      exists w', r. auto.
Qed.

Lemma C1_pages_then_empty_page_witness :
  exists w' reqs,
    _get_all
      (scripted [ok_response (envelope [JStr "a"; JStr "b"] 2);
                 ok_response (envelope [JStr "c"] 2);
                 ok_response (envelope [] 2)])
      5 demo_client "E" None demo_world
    = (Ret [JStr "a"; JStr "b"; JStr "c"], w') /\
    log w' = log demo_world ++ reqs /\ length reqs = 3%nat.
Proof.
  apply (proj1 (proj2 C1_pages_then_empty_page)).
  - apply scripted_answers.
  - lia.
Defined.

(** C1, as the claim has it, fails: pages may be shorter than the limit.
    With the limit 2 reported throughout and two pages of one record each,
    the fetch returns the 2 records after 3 GETs, and
    [ceil (2 / 2) + 1 = 2]. *)
Lemma C1_short_pages_counterexample :
  let run :=
    _get_all
      (scripted [ok_response (envelope [JStr "a"] 2);
                 ok_response (envelope [JStr "b"] 2);
                 ok_response (envelope [] 2)])
      5 demo_client "E" None demo_world in
  fst run = Ret [JStr "a"; JStr "b"] /\
  map (fun r => req_params r !! "limit") (log (snd run))
  = [Some (JNum 1000); Some (JNum 2); Some (JNum 2)] /\
  length (log (snd run)) = 3%nat /\
  ceil_div 2 2 + 1 = 2.
Proof. repeat split; reflexivity. Qed.

(** ** Errors during a paginated fetch *)

(** C4, as the code has it.  When, after any number of pages with records,
    a fetch fails, that is [_get] raises, [_get_all] raises the same error:
    it returns no list, the records of the earlier pages included, and the
    failed GET is its last one.  When the failure is a response with a
    status outside [200, 300), the error is the [ApiError] whose message
    holds the endpoint and the status; an error of another kind carries
    neither. *)
Theorem C4_failed_fetch_aborts server self E q w fuel script pages o e
    (Hpages : Forall2 (serves_page E) script pages)
    (Hans : answers server (log w) (script ++ [o]))
    (Hfail : get_verdict E o = Raise e)
    (Hfuel : (length pages < fuel)%nat) :
  exists w' reqs,
    _get_all server fuel self E q w = (Raise e, w') /\
    (forall l, fst (_get_all server fuel self E q w) <> Ret l) /\
    log w' = log w ++ reqs /\
    length reqs = S (length pages) /\
    server (log w') = o /\
    (forall r, o = NetReturn (Some r) -> ~ 200 <= status_code r < 300 ->
               e = ApiError ("GET " +:+ E +:+ " " +:+ str_of_int (status_code r))).
Proof.
  destruct (_get_all_pages server self E q script pages o fuel w Hpages Hans Hfuel)
    as (w' & reqs & Hlog & Hlen & _ & Hraise).
  exists w', reqs. rewrite (Hraise e Hfail).
  split; [reflexivity|]. split; [discriminate|]. split; [exact Hlog|].
  split; [exact Hlen|]. split.
  - rewrite Hlog. eapply answers_last; [exact Hans|].
    rewrite Hlen. f_equal. symmetry. eapply Forall2_length. exact Hpages.
  - intros r -> Hstatus. simpl in Hfail.
    destruct ((200 <=? status_code r) && (status_code r <? 300)) eqn:Hs.
    + apply andb_true_iff in Hs. destruct Hs as [H1 H2].
      apply Z.leb_le in H1. apply Z.ltb_lt in H2. lia.
    + inversion Hfail. reflexivity.
Qed.

Lemma C4_failed_fetch_aborts_witness :
  exists w' reqs,
    _get_all
      (scripted [ok_response (envelope [JStr "a"; JStr "b"] 2);
                 NetReturn (Some (mkResponse 404 None))])
      5 demo_client "E" None demo_world
    = (Raise (ApiError "GET E 404"), w') /\
    log w' = log demo_world ++ reqs /\
    length reqs = 2%nat.
Proof.
  destruct (C4_failed_fetch_aborts
              (scripted [ok_response (envelope [JStr "a"; JStr "b"] 2);
                         NetReturn (Some (mkResponse 404 None))])
              demo_client "E" None demo_world 5
              [ok_response (envelope [JStr "a"; JStr "b"] 2)]
              [([JStr "a"; JStr "b"], 2)]
              (NetReturn (Some (mkResponse 404 None)))
              (ApiError "GET E 404"))
    as (w' & reqs & Hrun & _ & Hlog & Hlen & _).
  - repeat constructor. apply envelope_serves_page. discriminate.
  - apply scripted_answers.
  - reflexivity.
  - simpl. lia.
  - exists w', reqs. auto.
Defined.

(** A fetch can fail without a status: the transport raises, or a 2xx
    response has a body that is no JSON.  The error of [_get_all] is then
    that error, which names neither the endpoint nor a status. *)
Lemma C4_network_failure_counterexample :
  let lost := _get_all (scripted [ok_response (envelope [JStr "a"; JStr "b"] 2); NetRaise])
                5 demo_client "E" None demo_world in
  let garbled := _get_all (scripted [ok_response (envelope [JStr "a"; JStr "b"] 2);
                                     NetReturn (Some (mkResponse 200 None))])
                   5 demo_client "E" None demo_world in
  fst lost = Raise RequestException /\
  fst garbled = Raise ValueError /\
  ~ (exists msg, fst lost = Raise (ApiError msg)) /\
  ~ (exists msg, fst garbled = Raise (ApiError msg)).
Proof.
  split; [reflexivity|]. split; [reflexivity|].
  split; intros (msg & H); vm_compute in H; discriminate.
Qed.

(** ** The cursor *)

Lemma requests_of_app w w' reqs :
  log w' = log w ++ reqs -> requests_of w w' = reqs.
Proof. intros H. unfold requests_of. rewrite H. apply drop_app_length. Qed.

Lemma next_limit_reported j limit :
  next_limit j = Ret limit ->
  limit = default (JNum DEFAULT_PAGE_LIMIT) (reported_limit j).
Proof.
  unfold next_limit, reported_limit.
  destruct j as [| | | | |fields]; simpl; try discriminate.
  destruct (assoc "pagination" fields) as [[| | | | |pg]|]; simpl;
    try discriminate; intros H; inversion H; reflexivity.
Qed.

Lemma py_add_int o limit off' :
  py_add (JNum o) limit = Ret off' ->
  exists v, int_of limit = Some v /\ off' = JNum (o + v).
Proof.
  destruct limit as [|b|n| | |]; simpl; try discriminate;
    intros H; inversion H; eexists; split; reflexivity.
Qed.

(** Offsets are integers all along. *)
Lemma trace_offsets server E hist d reqs :
  pagination_trace server E hist d reqs ->
  forall o, d !! "offset" = Some (JNum o) ->
    Forall (fun r => exists o', offset_of r = Some (JNum o')) reqs.
Proof.
  unfold offset_of.
  induction 1 as [hist d|hist d r HE Hp
                  |hist d r rest j items limit off off' HE Hp _ _ Hoff Hadd _ IH];
    intros o Ho.
  - constructor.
  - constructor; [|constructor]. exists o. rewrite Hp. unfold with_flag.
    rewrite lookup_insert_ne by discriminate. exact Ho.
  - constructor.
    + exists o. rewrite Hp. unfold with_flag.
      rewrite lookup_insert_ne by discriminate. exact Ho.
    + rewrite Ho in Hoff. inversion Hoff; subst off.
      destruct (py_add_int _ _ _ Hadd) as (v & _ & ->).
      apply (IH (o + v)). unfold advance. apply lookup_insert_eq.
Qed.

(** What links two successive requests of [_get_all]. *)
Lemma _get_all_consecutive server fuel self E q w i r r' :
  let reqs := requests_of w (snd (_get_all server fuel self E q w)) in
  reqs !! i = Some r -> reqs !! S i = Some r' ->
  exists j limit o v,
    get_verdict E (server (log w ++ take (S i) reqs)) = Ret j /\
    limit = default (JNum DEFAULT_PAGE_LIMIT) (reported_limit j) /\
    limit_of r' = Some limit /\
    int_of limit = Some v /\
    offset_of r = Some (JNum o) /\
    offset_of r' = Some (JNum (o + v)).
Proof.
  intros reqs Hr Hr'.
  destruct (_get_all_trace server fuel self E q w) as (reqs0 & Hlog & Htr & _).
  assert (Heq : reqs = reqs0) by (apply requests_of_app, Hlog).
  rewrite Heq in *. clear Heq reqs.
  destruct (trace_consecutive _ _ _ _ _ Htr i r r' Hr Hr')
    as (j & items & limit & off & off' & Hg & Hv & Hoff & Hadd & Hlim & Hoff').
  assert (Hints : Forall (fun r => exists o', offset_of r = Some (JNum o')) reqs0).
  { eapply trace_offsets; [exact Htr|]. unfold start, advance. apply lookup_insert_eq. }
  rewrite Forall_lookup in Hints. destruct (Hints i r Hr) as (o & Ho).
  unfold offset_of in Ho. rewrite Hoff in Ho. inversion Ho; subst off.
  destruct (py_add_int _ _ _ Hadd) as (v & Hv' & ->).
  exists j, limit, o, v. unfold limit_of, offset_of.
  repeat split; try assumption.
  apply next_limit_reported. eapply page_verdict_limit. exact Hv.
Qed.

(** C2, as the code has it.  Of two successive requests of one [_get_all],
    the second carries as its limit the [pagination.limit] of the response
    to the first when that response has one, and [DEFAULT_PAGE_LIMIT], that
    is 1000, when it has none. *)
Theorem C2_limit_from_last_response server fuel self E q w i r r'
    (Hr : requests_of w (snd (_get_all server fuel self E q w)) !! i = Some r)
    (Hr' : requests_of w (snd (_get_all server fuel self E q w)) !! S i = Some r') :
  exists response,
    get_verdict E
      (server (log w ++ take (S i) (requests_of w (snd (_get_all server fuel self E q w)))))
    = Ret response /\
    limit_of r' = Some (match reported_limit response with
                        | Some limit => limit
                        | None => JNum 1000
                        end).
Proof.
  destruct (_get_all_consecutive server fuel self E q w i r r' Hr Hr')
    as (j & limit & o & v & Hg & Hlim & Hl & _).
  exists j. split; [exact Hg|]. rewrite Hl, Hlim. reflexivity.
Qed.

Lemma C2_limit_from_last_response_witness :
  exists response,
    get_verdict "E"
      (scripted [ok_response (envelope [JStr "a"] 2);
                 ok_response (JObj [("data", JArr [JStr "b"])]);
                 ok_response (envelope [] 2)]
         (log demo_world ++
          take 2 (requests_of demo_world
                    (snd (_get_all
                            (scripted [ok_response (envelope [JStr "a"] 2);
                                       ok_response (JObj [("data", JArr [JStr "b"])]);
                                       ok_response (envelope [] 2)])
                            5 demo_client "E" None demo_world)))))
    = Ret response /\
    Some (JNum 1000)
    = Some (match reported_limit response with
            | Some limit => limit
            | None => JNum 1000
            end).
Proof.
  refine (C2_limit_from_last_response
            (scripted [ok_response (envelope [JStr "a"] 2);
                       ok_response (JObj [("data", JArr [JStr "b"])]);
                       ok_response (envelope [] 2)])
            5 demo_client "E" None demo_world 1
            (mkRequest "E"
               (<["envelope" := JStr "true"]>
                  (<["offset" := JNum 2]> (<["limit" := JNum 2]> ∅)))
               (<["X-TrackerToken" := JStr "token"]> ∅))
            (mkRequest "E"
               (<["envelope" := JStr "true"]>
                  (<["offset" := JNum 1002]> (<["limit" := JNum 1000]> ∅)))
               (<["X-TrackerToken" := JStr "token"]> ∅))
            _ _).
  - vm_compute. reflexivity.
  - vm_compute. reflexivity.
Defined.

(** C2, as the claim has it, fails: a response without [pagination] does
    not leave the limit in force as it is, it brings the default back.
    The first page reports the limit 2 and the second reports none: the
    third request asks for 1000 again. *)
Lemma C2_limit_reverts_counterexample :
  let run :=
    _get_all
      (scripted [ok_response (envelope [JStr "a"] 2);
                 ok_response (JObj [("data", JArr [JStr "b"])]);
                 ok_response (envelope [] 2)])
      5 demo_client "E" None demo_world in
  fst run = Ret [JStr "a"; JStr "b"] /\
  map limit_of (log (snd run))
  = [Some (JNum 1000); Some (JNum 2); Some (JNum 1000)].
Proof. split; reflexivity. Qed.

(** C3, as the code has it.  The first request of a [_get_all] carries the
    offset 0; of two successive requests, the second carries the offset of
    the first plus its own limit, which is the limit taken from the
    response to the first ([pagination.limit] when the response has one);
    and as long as the limits sent are not negative, the offsets never
    decrease. *)
Theorem C3_offset_advances_by_limit server fuel self E q w :
  let reqs := requests_of w (snd (_get_all server fuel self E q w)) in
  (forall r, reqs !! 0%nat = Some r -> offset_of r = Some (JNum 0)) /\
  (forall i r r',
     reqs !! i = Some r -> reqs !! S i = Some r' ->
     exists response limit o v,
       get_verdict E (server (log w ++ take (S i) reqs)) = Ret response /\
       limit = default (JNum DEFAULT_PAGE_LIMIT) (reported_limit response) /\
       limit_of r' = Some limit /\
       int_of limit = Some v /\
       offset_of r = Some (JNum o) /\
       offset_of r' = Some (JNum (o + v))) /\
  (Forall limit_nonneg reqs ->
   forall i k r rk o ok,
     (i <= k)%nat -> reqs !! i = Some r -> reqs !! k = Some rk ->
     offset_of r = Some (JNum o) -> offset_of rk = Some (JNum ok) ->
     o <= ok).
Proof.
  intros reqs.
  assert (Hstep : forall i r r',
     reqs !! i = Some r -> reqs !! S i = Some r' ->
     exists response limit o v,
       get_verdict E (server (log w ++ take (S i) reqs)) = Ret response /\
       limit = default (JNum DEFAULT_PAGE_LIMIT) (reported_limit response) /\
       limit_of r' = Some limit /\
       int_of limit = Some v /\
       offset_of r = Some (JNum o) /\
       offset_of r' = Some (JNum (o + v))).
  { intros i r r'. apply _get_all_consecutive. }
  split; [|split; [exact Hstep|]].
  - intros r Hr.
    destruct (_get_all_trace server fuel self E q w) as (reqs0 & Hlog & Htr & _).
    assert (Heq : reqs = reqs0) by (apply requests_of_app, Hlog).
    rewrite Heq in Hr. destruct reqs0 as [|r0 rest]; [discriminate|].
    simpl in Hr. inversion Hr; subst r0.
    destruct (trace_head _ _ _ _ _ _ Htr) as [_ Hp].
    unfold offset_of. rewrite Hp. unfold with_flag, start, advance.
    rewrite lookup_insert_ne by discriminate. apply lookup_insert_eq.
  - intros Hnn i k. induction k as [|k IH]; intros r rk o ok Hik Hr Hrk Ho Hok.
    + assert (i = 0%nat) by lia. subst i. rewrite Hr in Hrk. inversion Hrk; subst rk.
      rewrite Ho in Hok. inversion Hok. lia.
    + destruct (decide (i = S k)) as [->|Hne].
      * rewrite Hr in Hrk. inversion Hrk; subst rk.
        rewrite Ho in Hok. inversion Hok. lia.
      * assert (Hlt : (k < length reqs)%nat)
          by (apply lookup_lt_Some in Hrk; lia).
        destruct (lookup_lt_is_Some_2 reqs k Hlt) as [rk' Hrk'].
        destruct (Hstep k rk' rk Hrk' Hrk)
          as (resp & limit & o' & v & _ & _ & Hlim & Hint & Ho' & Hok').
        rewrite Hok in Hok'. inversion Hok'; subst ok.
        assert (Hle : o <= o') by (apply (IH r rk' o o'); auto; lia).
        rewrite Forall_lookup in Hnn.
        destruct (Hnn (S k) rk Hrk) as (limit' & v' & Hlim' & Hint' & Hv').
        rewrite Hlim in Hlim'. inversion Hlim'; subst limit'.
        rewrite Hint in Hint'. inversion Hint'; subst v'. lia.
Qed.

Lemma C3_offset_advances_by_limit_witness :
  Forall limit_nonneg
    (requests_of demo_world
       (snd (_get_all
               (scripted [ok_response (envelope [JStr "a"; JStr "b"] 2);
                          ok_response (envelope [JStr "c"] 2);
                          ok_response (envelope [] 2)])
               5 demo_client "E" None demo_world))) /\
  0 <= 4.
Proof.
  assert (Hnn : Forall limit_nonneg
    (requests_of demo_world
       (snd (_get_all
               (scripted [ok_response (envelope [JStr "a"; JStr "b"] 2);
                          ok_response (envelope [JStr "c"] 2);
                          ok_response (envelope [] 2)])
               5 demo_client "E" None demo_world)))).
  { vm_compute. repeat constructor.
    - exists (JNum 1000), 1000. repeat split; discriminate.
    - exists (JNum 2), 2. repeat split; discriminate.
    - exists (JNum 2), 2. repeat split; discriminate. }
  split; [exact Hnn|].
  refine (proj2 (proj2 (C3_offset_advances_by_limit
            (scripted [ok_response (envelope [JStr "a"; JStr "b"] 2);
                       ok_response (envelope [JStr "c"] 2);
                       ok_response (envelope [] 2)])
            5 demo_client "E" None demo_world)) Hnn 0%nat 2%nat
            (mkRequest "E"
               (<["envelope" := JStr "true"]>
                  (<["offset" := JNum 0]> (<["limit" := JNum 1000]> ∅)))
               (<["X-TrackerToken" := JStr "token"]> ∅))
            (mkRequest "E"
               (<["envelope" := JStr "true"]>
                  (<["offset" := JNum 4]> (<["limit" := JNum 2]> ∅)))
               (<["X-TrackerToken" := JStr "token"]> ∅))
            0 4 _ _ _ _ _).
  - lia.
  - vm_compute. reflexivity.
  - vm_compute. reflexivity.
  - reflexivity.
  - reflexivity.
Defined.

(** C3, as the claim has it, fails in its last part: a limit taken from the
    server may be negative, and then the offset goes down.  The first page
    reports the limit -5: the second request asks for the offset -5. *)
Lemma C3_offset_decreases_counterexample :
  let run :=
    _get_all
      (scripted [ok_response (envelope [JStr "a"] (-5));
                 ok_response (envelope [] (-5))])
      5 demo_client "E" None demo_world in
  fst run = Ret [JStr "a"] /\
  map offset_of (log (snd run)) = [Some (JNum 0); Some (JNum (-5))].
Proof. split; reflexivity. Qed.

(** ** Filling a URL template *)

Lemma append_assoc_s (a b c : string) : (a +:+ b) +:+ c = a +:+ (b +:+ c).
Proof.
  induction a as [|x a IH]; [reflexivity|].
  change (String x ((a +:+ b) +:+ c) = String x (a +:+ (b +:+ c))).
  rewrite IH. reflexivity.
Qed.

Lemma append_empty_r (a : string) : a +:+ EmptyString = a.
Proof.
  induction a as [|x a IH]; [reflexivity|].
  change (String x (a +:+ EmptyString) = String x a). rewrite IH. reflexivity.
Qed.

Lemma brace_free_app (a b : string) :
  brace_free (a +:+ b) = brace_free a && brace_free b.
Proof.
  induction a as [|x a IH]; [reflexivity|].
  change (negb (Ascii.eqb x "{") && negb (Ascii.eqb x "}") && brace_free (a +:+ b)
          = negb (Ascii.eqb x "{") && negb (Ascii.eqb x "}") && brace_free a
            && brace_free b).
  rewrite IH. apply andb_assoc.
Qed.

Lemma brace_free_cons x s :
  brace_free (String x s) = true ->
  Ascii.eqb x "{" = false /\ Ascii.eqb x "}" = false /\ brace_free s = true.
Proof.
  simpl. intros H. apply andb_true_iff in H. destruct H as [H Hs].
  apply andb_true_iff in H. destruct H as [H1 H2].
  apply negb_true_iff in H1. apply negb_true_iff in H2. auto.
Qed.

(** Text without braces comes out of [format] as it is. *)
Lemma format_from_plain py_field filled s a :
  brace_free s = true -> format_from py_field filled s a = Ret s.
Proof.
  induction s as [|x s IH]; intros Hs; [reflexivity|].
  apply brace_free_cons in Hs. destruct Hs as (H1 & H2 & Hs).
  cbn [format_from]. rewrite H1, H2, (IH Hs). reflexivity.
Qed.

(** Filling a template that has one empty field and no other brace puts
    the argument in the place of the field. *)
Lemma format1_fill py_field (p s a : string) :
  brace_free p = true -> brace_free s = true ->
  format1 py_field (p +:+ String "{" (String "}" s)) a = Ret (p +:+ a +:+ s).
Proof.
  intros Hp Hs. unfold format1. induction p as [|x p IH].
  - change (EmptyString +:+ String "{" (String "}" s)) with (String "{" (String "}" s)).
    cbn [format_from]. change (Ascii.eqb "{" "{") with true.
    change (Ascii.eqb "}" "{") with false. change (Ascii.eqb "}" "}") with true.
    cbv iota. rewrite (format_from_plain py_field true s a Hs). reflexivity.
  - apply brace_free_cons in Hp. destruct Hp as (H1 & H2 & Hp).
    change (String x p +:+ String "{" (String "}" s))
      with (String x (p +:+ String "{" (String "}" s))).
    cbn [format_from]. rewrite H1, H2, (IH Hp). reflexivity.
Qed.

(** A closing brace on its own in the text before the field is an error,
    whatever follows. *)
Example format1_lone_brace py_field :
  format1 py_field "a}b/{}" "5" = Raise ValueError.
Proof. reflexivity. Qed.

(** A second empty field finds no argument. *)
Example format1_second_field py_field :
  format1 py_field "{}/x/{}" "5" = Raise IndexError.
Proof. reflexivity. Qed.

(** Doubled braces are single braces in the result. *)
Example format1_escapes py_field :
  format1 py_field "{{a}}/{}" "5" = Ret "{a}/5".
Proof. reflexivity. Qed.

(** The template of the stories of an integration, filled with an
    identifier. *)
Lemma format1_integration_stories py_repr py_field u id :
  brace_free u = true ->
  format1 py_field (u +:+ "/{}/stories") (py_str py_repr id)
  = Ret (integration_stories_url py_repr u id).
Proof.
  intros Hu.
  change (u +:+ "/{}/stories")
    with (u +:+ ("/" +:+ String "{" (String "}" "/stories"))).
  rewrite <- append_assoc_s. rewrite format1_fill.
  - unfold integration_stories_url. rewrite append_assoc_s. reflexivity.
  - rewrite brace_free_app, Hu. reflexivity.
  - reflexivity.
Qed.

(** ** Stories of all integrations *)

Lemma get_integration_stories_run server py_repr py_field self id w u :
  py_truthy (project_id self) = true ->
  api_integration_stories self = Some (u +:+ "/{}/stories") ->
  brace_free u = true ->
  get_integration_stories server py_repr py_field self id w
  = _get server self (integration_stories_url py_repr u id) (Some (length (heap w))) false
      (mkWorld (heap w ++ [exclude_linked]) (log w)).
Proof.
  intros Hid Ht Hu. unfold get_integration_stories, bind.
  rewrite verify_project_set by exact Hid. simpl. rewrite Ht. simpl.
  rewrite (format1_integration_stories py_repr py_field u id Hu). reflexivity.
Qed.

Lemma get_integrations_run server self w u :
  py_truthy (project_id self) = true ->
  api_integrations self = Some u ->
  get_integrations server self w = _get server self u None false w.
Proof.
  intros Hid Hu. unfold get_integrations, bind.
  rewrite verify_project_set by exact Hid. rewrite Hu. reflexivity.
Qed.

(** One turn of the loop of [get_all_integration_stories]. *)
Lemma integration_stories_loop_step server py_repr py_field self u f rest results w o script :
  py_truthy (project_id self) = true ->
  api_integration_stories self = Some (u +:+ "/{}/stories") ->
  brace_free u = true ->
  answers server (log w) (o :: script) ->
  exists w1 req,
    log w1 = log w ++ [req] /\
    asks_stories py_repr u f req /\
    (forall s, delivers o (JArr s) ->
       integration_stories_loop server py_repr py_field self (JObj f :: rest) results w
       = integration_stories_loop server py_repr py_field self rest (results ++ s) w1) /\
    (forall e,
       get_verdict (integration_stories_url py_repr u (integration_id f)) o = Raise e ->
       integration_stories_loop server py_repr py_field self (JObj f :: rest) results w
       = (Raise e, w1)).
Proof.
  intros Hid Ht Hu Hans.
  set (wq := mkWorld (heap w ++ [exclude_linked]) (log w)).
  set (E := integration_stories_url py_repr u (integration_id f)).
  set (req := sent self E (Some (length (heap w))) false wq).
  exists (mkWorld (heap wq ++ [with_flag false (snapshot wq (Some (length (heap w))))])
            (log w ++ [req])), req.
  split; [reflexivity|]. split.
  { split; [reflexivity|]. simpl. apply heap_fresh_total. }
  cbn [integration_stories_loop]. unfold bind, lift. cbn [py_get].
  fold (integration_id f).
  rewrite (get_integration_stories_run server py_repr py_field self _ w u Hid Ht Hu).
  fold wq. fold E. rewrite _get_run. fold req.
  change (log wq) with (log w). rewrite (answers_head _ _ _ _ _ Hans).
  split.
  - intros s Hs. rewrite (get_verdict_delivers _ _ _ Hs). reflexivity.
  - intros e He. rewrite He. reflexivity.
Qed.

(** The integrations [done], whose stories the server delivers, are
    fetched one after the other; the loop goes on with the others. *)
Lemma integration_stories_loop_prefix server py_repr py_field self u outs parts :
  py_truthy (project_id self) = true ->
  api_integration_stories self = Some (u +:+ "/{}/stories") ->
  brace_free u = true ->
  Forall2 (fun o s => delivers o (JArr s)) outs parts ->
  forall done rest tail results w,
    length done = length parts ->
    answers server (log w) (outs ++ tail) ->
    exists w2 reqs,
      integration_stories_loop server py_repr py_field self (map JObj done ++ rest) results w
      = integration_stories_loop server py_repr py_field self rest (results ++ concat parts) w2 /\
      log w2 = log w ++ reqs /\
      Forall2 (asks_stories py_repr u) done reqs /\
      answers server (log w2) tail.
Proof.
  intros Hid Ht Hu. induction 1 as [|o s outs parts Ho _ IH];
    intros done rest tail results w Hlen Hans.
  - destruct done; [|discriminate]. exists w, []. simpl. rewrite !app_nil_r.
    split; [reflexivity|]. split; [reflexivity|]. split; [constructor | exact Hans].
  - destruct done as [|f done]; [discriminate|]. simpl in Hlen.
    cbn [map app]. simpl in Hans.
    destruct (integration_stories_loop_step server py_repr py_field self u f
                (map JObj done ++ rest) results w o (outs ++ tail) Hid Ht Hu Hans)
      as (w1 & req & Hlog1 & Hreq1 & Hstep & _).
    rewrite (Hstep s Ho).
    destruct (IH done rest tail (results ++ s) w1) as (w2 & reqs & Hrun & Hlog & Hreqs & Hans2).
    + lia.
    + rewrite Hlog1. eapply answers_tail. exact Hans.
    + exists w2, (req :: reqs). split; [|split; [|split]].
      * rewrite Hrun. simpl. rewrite <- app_assoc. reflexivity.
      * rewrite Hlog, Hlog1, <- app_assoc. reflexivity.
      * constructor; assumption.
      * exact Hans2.
Qed.

Lemma asks_stories_endpoints py_repr u done reqs :
  Forall2 (asks_stories py_repr u) done reqs ->
  map req_endpoint reqs
  = map (fun f => integration_stories_url py_repr u (integration_id f)) done.
Proof.
  induction 1 as [|f r done reqs (HE & _) _ IH]; [reflexivity|].
  simpl. rewrite HE, IH. reflexivity.
Qed.

(** The first request: the integrations. *)
Lemma integrations_fetched server py_repr py_field self u w o0 script ints :
  py_truthy (project_id self) = true ->
  api_integrations self = Some u ->
  answers server (log w) (o0 :: script) ->
  delivers o0 (JArr ints) ->
  exists w1,
    get_all_integration_stories server py_repr py_field self w
    = integration_stories_loop server py_repr py_field self ints [] w1 /\
    log w1 = log w ++ [sent self u None false w] /\
    answers server (log w1) script.
Proof.
  intros Hid Hu Hans Hints.
  unfold get_all_integration_stories, bind, lift.
  rewrite (get_integrations_run server self w u Hid Hu), _get_run.
  rewrite (answers_head _ _ _ _ _ Hans), (get_verdict_delivers _ _ _ Hints).
  cbn [py_iter].
  eexists (mkWorld _ _). split; [reflexivity|]. split; [reflexivity|].
  simpl. eapply answers_tail. exact Hans.
Qed.

(** The run of [get_all_integration_stories] against a server that
    delivers the integrations and the stories of each. *)
Lemma all_integration_stories_run server py_repr py_field self u w o0 ints outs parts :
  py_truthy (project_id self) = true ->
  api_integrations self = Some u ->
  api_integration_stories self = Some (u +:+ "/{}/stories") ->
  brace_free u = true ->
  answers server (log w) (o0 :: outs) ->
  delivers o0 (JArr (map JObj ints)) ->
  Forall2 (fun o s => delivers o (JArr s)) outs parts ->
  length ints = length parts ->
  exists w' r0 reqs,
    get_all_integration_stories server py_repr py_field self w = (Ret (concat parts), w') /\
    log w' = log w ++ r0 :: reqs /\
    req_endpoint r0 = u /\ req_params r0 = ∅ /\
    Forall2 (asks_stories py_repr u) ints reqs.
Proof.
  intros Hid Hu Ht Hbf Hans Hints Hstories Hlen.
  destruct (integrations_fetched server py_repr py_field self u w o0 outs _ Hid Hu Hans Hints)
    as (w1 & Hrun0 & Hlog0 & Hans1).
  rewrite Hrun0.
  destruct (integration_stories_loop_prefix server py_repr py_field self u outs parts
              Hid Ht Hbf Hstories ints [] [] [] w1 Hlen)
    as (w2 & reqs & Hrun & Hlog & Hreqs & _).
  - rewrite app_nil_r. exact Hans1.
  - rewrite app_nil_r in Hrun. rewrite Hrun. simpl.
    exists w2, (sent self u None false w), reqs. split; [reflexivity|]. split.
    + rewrite Hlog, Hlog0, <- app_assoc. reflexivity.
    + split; [reflexivity|]. split; [reflexivity | exact Hreqs].
Qed.







Example all_integration_stories_demo :
  fst (get_all_integration_stories
         (scripted [ok_response (JArr [JObj [("id", JNum 7)]; JObj [("id", JNum 8)]]);
                    ok_response (JArr [JStr "a"; JStr "b"]);
                    ok_response (JArr [JStr "c"])])
         no_repr no_field demo_client demo_world)
  = Ret [JStr "a"; JStr "b"; JStr "c"].
Proof. reflexivity. Qed.

(** ** Headers and the store, for every public method *)

Lemma tidy_quiet {A} h (m : M A) w :
  heap w `prefix_of` heap (snd (m w)) -> log (snd (m w)) = log w -> tidy h m w.
Proof.
  intros Hpre Hlog. split; [exact Hpre|]. exists []. rewrite app_nil_r. auto.
Qed.

Lemma tidy_bind {A B} h a (m : M A) (k : A -> M B) w :
  heap w !! a = Some h ->
  tidy h m w ->
  (forall x, fst (m w) = Ret x -> heap (snd (m w)) !! a = Some h ->
             tidy h (k x) (snd (m w))) ->
  tidy h (bind m k) w.
Proof.
  intros Ha (Hpre & reqs & Hlog & Hall) Hk.
  assert (Ha' : heap (snd (m w)) !! a = Some h)
    by (eapply prefix_lookup_Some; eauto).
  unfold tidy, bind. destruct (m w) as [[x|e|] w1]; simpl in *.
  - destruct (Hk x eq_refl Ha') as (Hpre' & reqs' & Hlog' & Hall').
    split; [etransitivity; eauto|].
    exists (reqs ++ reqs'). rewrite Hlog', Hlog, app_assoc.
    split; [reflexivity | apply Forall_app; auto].
  - split; [exact Hpre|]. exists reqs. auto.
  - split; [exact Hpre|]. exists reqs. auto.
Qed.

Lemma tidy_get server self E q env h w :
  heap w !! auth_headers self = Some h ->
  tidy h (_get server self E q env) w.
Proof.
  intros Ha. unfold tidy. rewrite _get_run. simpl. split.
  - eexists. reflexivity.
  - eexists. split; [reflexivity|]. constructor; [|constructor]. simpl.
    rewrite lookup_total_app_l by (eapply lookup_lt_Some; eauto).
    apply list_lookup_total_correct. exact Ha.
Qed.

Lemma _get_all_loop_headers server self E l a h fuel :
  forall results w off,
    (l < length (heap w))%nat ->
    (heap w !!! l) !! "offset" = Some off ->
    a = auth_headers self ->
    a <> l ->
    heap w !! a = Some h ->
    exists reqs,
      log (snd (_get_all_loop server fuel self E l results w)) = log w ++ reqs /\
      Forall (fun r => req_headers r = h) reqs.
Proof.
  induction fuel as [|fuel IH]; intros results w off Hl Hoff Hauth Hne Ha.
  - exists []. simpl. rewrite app_nil_r. auto.
  - rewrite (_get_all_loop_step server self E l results w fuel _ off Hl eq_refl Hoff).
    set (req := sent self E (Some l) true w).
    assert (Hreq : req_headers req = h).
    { unfold req, sent. simpl. rewrite <- Hauth.
      rewrite lookup_total_app_l by (eapply lookup_lt_Some; eauto).
      apply list_lookup_total_correct. exact Ha. }
    assert (Hlast : forall (r : res (list json)) hp,
               exists reqs,
                 log (snd (r, mkWorld hp (log w ++ [req]))) = log w ++ reqs /\
                 Forall (fun r => req_headers r = h) reqs).
    { intros r hp. exists [req]. simpl. split; [reflexivity|].
      constructor; [exact Hreq | constructor]. }
    destruct (rbind (get_verdict E (server (log w ++ [req]))) page_verdict)
      as [[[items limit]|]| |]; try apply Hlast.
    destruct (py_add off limit) as [off'| |]; try apply Hlast.
    set (w1 := mkWorld _ _).
    destruct (IH (results ++ items) w1 off') as (reqs & Hlog & Hall).
    + unfold w1; simpl. rewrite length_app, length_insert. lia.
    + unfold w1; simpl. rewrite lookup_total_app_l by (rewrite length_insert; lia).
      rewrite list_lookup_total_insert_eq by exact Hl. apply lookup_insert_eq.
    + exact Hauth.
    + exact Hne.
    + unfold w1; simpl.
      rewrite lookup_app_l
        by (rewrite length_insert; eapply lookup_lt_Some; eauto).
      rewrite list_lookup_insert_ne by auto. exact Ha.
    + exists (req :: reqs). split.
      * rewrite Hlog. unfold w1; simpl. rewrite <- app_assoc. reflexivity.
      * constructor; assumption.
Qed.

Lemma tidy_get_all server fuel self E q h w :
  heap w !! auth_headers self = Some h ->
  tidy h (_get_all server fuel self E q) w.
Proof.
  intros Ha. split.
  - destruct (_get_all_trace server fuel self E q w) as (reqs & _ & _ & Hpre & _).
    exact Hpre.
  - rewrite _get_all_run.
    assert (Hlt : (auth_headers self < length (heap w))%nat)
      by (eapply lookup_lt_Some; eauto).
    destruct (_get_all_loop_headers server self E (length (heap w))
                (auth_headers self) h fuel []
                (mkWorld (heap w ++ [start (snapshot w q)]) (log w)) (JNum 0))
      as (reqs & Hlog & Hall); simpl.
    + rewrite length_app. simpl. lia.
    + rewrite heap_fresh_total. apply lookup_insert_eq.
    + reflexivity.
    + lia.
    + rewrite lookup_app_l by exact Hlt. exact Ha.
    + exists reqs. auto.
Qed.

Lemma tidy_verify_project h self name w :
  tidy h (_verify_project_id_exists self name) w.
Proof.
  apply tidy_quiet; rewrite verify_project_world; reflexivity.
Qed.

Lemma tidy_verify_account h self name w :
  tidy h (_verify_account_id_exists self name) w.
Proof.
  apply tidy_quiet; rewrite verify_account_world; reflexivity.
Qed.

Lemma tidy_attr h a w : tidy h (attr a) w.
Proof. apply tidy_quiet; rewrite attr_world; reflexivity. Qed.

Lemma tidy_lift {A} h (r : res A) w : tidy h (lift r) w.
Proof. apply tidy_quiet; reflexivity. Qed.

Lemma tidy_ret {A} h (x : A) w : tidy h (ret x) w.
Proof. apply tidy_quiet; reflexivity. Qed.

Lemma tidy_dict_new h d w : tidy h (dict_new d) w.
Proof.
  apply tidy_quiet; simpl; [eexists; reflexivity | reflexivity].
Qed.

Lemma tidy_as_list h a (m : M (list json)) w :
  heap w !! a = Some h -> tidy h m w -> tidy h (as_list m) w.
Proof.
  intros Ha H. unfold as_list. eapply tidy_bind; [exact Ha | exact H |].
  intros x _ _. apply tidy_ret.
Qed.

Ltac tidy_step :=
  first
    [ apply tidy_verify_project
    | apply tidy_verify_account
    | apply tidy_attr
    | apply tidy_lift
    | apply tidy_dict_new
    | apply tidy_ret ].

Lemma tidy_stories_by_filter server fuel self f h w :
  heap w !! auth_headers self = Some h ->
  tidy h (get_stories_by_filter server fuel self f) w.
Proof.
  intros Ha.
  destruct (py_truthy (project_id self)) eqn:Hid.
  - destruct (api_stories self) as [uri|] eqn:Huri.
    + unfold tidy.
      rewrite (get_stories_by_filter_run server fuel self f w uri Hid Huri).
      set (w1 := mkWorld _ _).
      assert (Ha1 : heap w1 !! auth_headers self = Some h).
      { unfold w1; simpl.
        rewrite lookup_app_l by (eapply lookup_lt_Some; eauto). exact Ha. }
      destruct (tidy_get_all server fuel self uri (Some (length (heap w))) h w1 Ha1)
        as (Hpre & Hreqs).
      split; [|exact Hreqs].
      etransitivity; [|exact Hpre]. unfold w1; simpl. eexists. reflexivity.
    + apply tidy_quiet;
        unfold get_stories_by_filter, _verify_project_id_exists, dict_copy, dict_read,
          dict_new, dict_setitem, attr, bind, ret, raise;
        rewrite Hid, Huri; simpl; [|reflexivity].
      rewrite heap_fresh_insert. eexists. reflexivity.
  - apply tidy_quiet; unfold get_stories_by_filter, bind;
      rewrite verify_project_unset by exact Hid; reflexivity.
Qed.

Lemma tidy_integration_stories server py_repr py_field self id h w :
  heap w !! auth_headers self = Some h ->
  tidy h (get_integration_stories server py_repr py_field self id) w.
Proof.
  intros Ha. unfold get_integration_stories.
  eapply tidy_bind; [exact Ha | tidy_step |]. intros ? _ Ha1.
  eapply tidy_bind; [exact Ha1 | tidy_step |]. intros ? _ Ha2.
  eapply tidy_bind; [exact Ha2 | tidy_step |]. intros ? _ Ha3.
  eapply tidy_bind; [exact Ha3 | tidy_step |]. intros ? _ Ha4.
  apply tidy_get. exact Ha4.
Qed.

Lemma tidy_integration_stories_loop server py_repr py_field self h integrations :
  forall results w,
    heap w !! auth_headers self = Some h ->
    tidy h (integration_stories_loop server py_repr py_field self integrations results) w.
Proof.
  induction integrations as [|i rest IH]; intros results w Ha;
    cbn [integration_stories_loop].
  - apply tidy_ret.
  - eapply tidy_bind; [exact Ha | tidy_step |]. intros ? _ Ha1.
    eapply tidy_bind; [exact Ha1 | apply tidy_integration_stories; exact Ha1 |].
    intros ? _ Ha2.
    eapply tidy_bind; [exact Ha2 | tidy_step |]. intros ? _ Ha3.
    apply IH. exact Ha3.
Qed.

Lemma tidy_invoke server py_repr py_field fuel self m h w :
  heap w !! auth_headers self = Some h ->
  tidy h (invoke server py_repr py_field fuel self m) w.
Proof.
  intros Ha.
  destruct m; unfold invoke.
  - eapply tidy_as_list; [exact Ha|]. apply tidy_stories_by_filter. exact Ha.
  - eapply tidy_as_list; [exact Ha|]. unfold get_stories_by_label.
    eapply tidy_bind; [exact Ha | tidy_step |]. intros ? _ Ha1.
    eapply tidy_bind; [exact Ha1 | tidy_step |]. intros ? _ Ha2.
    eapply tidy_bind; [exact Ha2 | tidy_step |]. intros ? _ Ha3.
    apply tidy_get_all. exact Ha3.
  - unfold get_story_activities.
    eapply tidy_bind; [exact Ha | tidy_step |]. intros ? _ Ha1.
    eapply tidy_bind; [exact Ha1 | tidy_step |]. intros ? _ Ha2.
    eapply tidy_bind; [exact Ha2 | tidy_step |]. intros ? _ Ha3.
    apply tidy_get. exact Ha3.
  - unfold get_project_memberships.
    eapply tidy_bind; [exact Ha | tidy_step |]. intros ? _ Ha1.
    eapply tidy_bind; [exact Ha1 | tidy_step |]. intros ? _ Ha2.
    apply tidy_get. exact Ha2.
  - unfold get_account_memberships.
    eapply tidy_bind; [exact Ha | tidy_step |]. intros ? _ Ha1.
    eapply tidy_bind; [exact Ha1 | tidy_step |]. intros ? _ Ha2.
    apply tidy_get. exact Ha2.
  - unfold get_integrations.
    eapply tidy_bind; [exact Ha | tidy_step |]. intros ? _ Ha1.
    eapply tidy_bind; [exact Ha1 | tidy_step |]. intros ? _ Ha2.
    apply tidy_get. exact Ha2.
  - unfold get_integration.
    eapply tidy_bind; [exact Ha | tidy_step |]. intros ? _ Ha1.
    eapply tidy_bind; [exact Ha1 | tidy_step |]. intros ? _ Ha2.
    eapply tidy_bind; [exact Ha2 | tidy_step |]. intros ? _ Ha3.
    apply tidy_get. exact Ha3.
  - apply tidy_integration_stories. exact Ha.
  - eapply tidy_as_list; [exact Ha|]. unfold get_all_integration_stories.
    eapply tidy_bind; [exact Ha | |].
    + unfold get_integrations.
      eapply tidy_bind; [exact Ha | tidy_step |]. intros ? _ Ha1.
      eapply tidy_bind; [exact Ha1 | tidy_step |]. intros ? _ Ha2.
      apply tidy_get. exact Ha2.
    + intros ? _ Ha1.
      eapply tidy_bind; [exact Ha1 | tidy_step |]. intros ? _ Ha2.
      apply tidy_integration_stories_loop. exact Ha2.
Qed.

(** X2.  Whatever public method is called and however the call ends, the
    dictionaries that were in the store before it, the stored headers and
    [api_filter] among them, are unchanged after it, and every request the
    call has sent carries the headers stored in [auth_headers]. *)
Theorem X2_headers_and_store_kept server py_repr py_field fuel self m h w
    (Hheaders : heap w !! auth_headers self = Some h) :
  heap w `prefix_of` heap (snd (invoke server py_repr py_field fuel self m w)) /\
  (forall l d, heap w !! l = Some d ->
               heap (snd (invoke server py_repr py_field fuel self m w)) !! l = Some d) /\
  exists reqs,
    log (snd (invoke server py_repr py_field fuel self m w)) = log w ++ reqs /\
    Forall (fun r => req_headers r = h) reqs.
Proof.
  destruct (tidy_invoke server py_repr py_field fuel self m h w Hheaders) as (Hpre & Hreqs).
  split; [exact Hpre|]. split; [|exact Hreqs].
  intros l d Hl. eapply prefix_lookup_Some; [exact Hl | exact Hpre].
Qed.

Lemma X2_headers_and_store_kept_witness :
  exists reqs,
    log (snd (invoke
                (scripted [ok_response (envelope [JStr "s1"] 1);
                           ok_response (envelope [] 1)])
                no_repr no_field 5 demo_client (GetStoriesByLabel (JStr "bug")) demo_world))
    = log demo_world ++ reqs /\
    Forall (fun r => req_headers r = token_headers "token") reqs.
Proof.
  apply (X2_headers_and_store_kept
           (scripted [ok_response (envelope [JStr "s1"] 1);
                      ok_response (envelope [] 1)])
           no_repr no_field 5 demo_client (GetStoriesByLabel (JStr "bug"))
           (token_headers "token") demo_world).
  reflexivity.
Defined.

(** ** The URLs of the methods *)

(** The attributes [__init__] sets, written out. *)
Lemma init_endpoints py_repr api_token account project api_root w c :
  fst (__init__ py_repr api_token account project api_root w) = Ret c ->
  let root := root_of api_root in
  let str := py_str py_repr in
  project_id c = project /\ account_id c = account /\
  (py_truthy project = true ->
   api_stories c = Some (root +:+ "/projects/" +:+ str project +:+ "/stories") /\
   api_activity c
   = Some ((root +:+ "/projects/" +:+ str project +:+ "/stories/")
           +:+ String "{" (String "}" "/activity")) /\
   api_project_memberships c
   = Some (root +:+ "/projects/" +:+ str project +:+ "/memberships") /\
   api_integrations c
   = Some (root +:+ "/projects/" +:+ str project +:+ "/integrations") /\
   api_integration c
   = Some ((root +:+ "/projects/" +:+ str project +:+ "/integrations/")
           +:+ String "{" (String "}" EmptyString)) /\
   api_integration_stories c
   = Some ((root +:+ "/projects/" +:+ str project +:+ "/integrations/")
           +:+ String "{" (String "}" "/stories"))) /\
  (py_truthy account = true ->
   api_account_memberships c
   = Some (root +:+ "/accounts/" +:+ str account +:+ "/memberships")).
Proof.
  intros Hinit root str.
  unfold __init__, dict_new, bind, ret in Hinit. simpl in Hinit.
  inversion Hinit; subst c; clear Hinit. simpl.
  fold (root_of api_root). fold root. fold str.
  split; [reflexivity|]. split; [reflexivity|]. split.
  - intros Hp. rewrite Hp. simpl.
    repeat split; f_equal; rewrite !append_assoc_s; reflexivity.
  - intros Ha. rewrite Ha. simpl. f_equal. rewrite !append_assoc_s. reflexivity.
Qed.

Lemma brace_free_project_prefix root p tail :
  brace_free root = true -> brace_free p = true -> brace_free tail = true ->
  brace_free (root +:+ "/projects/" +:+ p +:+ tail) = true.
Proof.
  intros Hr Hp Ht. rewrite !brace_free_app, Hr, Hp, Ht. reflexivity.
Qed.

(** A method of one GET is that GET, at the URL of the method. *)
Lemma invoke_single_run server py_repr py_field api_token account project api_root w0 c fuel m w :
  fst (__init__ py_repr api_token account project api_root w0) = Ret c ->
  py_truthy (match requires m with Project => project | Account => account end) = true ->
  brace_free (root_of api_root) = true ->
  brace_free (py_str py_repr project) = true ->
  is_single m = true ->
  exists q w1,
    log w1 = log w /\
    invoke server py_repr py_field fuel c m w
    = _get server c (url_of py_repr (root_of api_root) account project m) q false w1.
Proof.
  intros Hinit Hid Hroot Hproj Hsingle.
  destruct (init_endpoints _ _ _ _ _ _ _ Hinit) as (Hpid & Haid & Hpe & Hae).
  assert (Hfill : forall lit s a,
             brace_free lit = true -> brace_free s = true ->
             format1 py_field ((root_of api_root +:+ "/projects/"
                                +:+ py_str py_repr project +:+ lit)
                               +:+ String "{" (String "}" s)) a
             = Ret (root_of api_root +:+ "/projects/"
                    +:+ py_str py_repr project +:+ lit +:+ a +:+ s)).
  { intros lit s a Hlit Hs. rewrite format1_fill
      by (try apply brace_free_project_prefix; assumption).
    rewrite !append_assoc_s. reflexivity. }
  destruct m; try discriminate; simpl in Hid; unfold invoke, url_of.
  - destruct (Hpe Hid) as (_ & Hact & _).
    exists None, w. split; [reflexivity|].
    unfold get_story_activities, bind.
    rewrite verify_project_set by (rewrite Hpid; exact Hid).
    rewrite Hact. simpl. rewrite Hfill by reflexivity. reflexivity.
  - destruct (Hpe Hid) as (_ & _ & Hmem & _).
    exists None, w. split; [reflexivity|].
    unfold get_project_memberships, bind.
    rewrite verify_project_set by (rewrite Hpid; exact Hid).
    rewrite Hmem. reflexivity.
  - exists None, w. split; [reflexivity|].
    unfold get_account_memberships, bind.
    rewrite verify_account_set by (rewrite Haid; exact Hid).
    rewrite (Hae Hid). reflexivity.
  - destruct (Hpe Hid) as (_ & _ & _ & Hint & _).
    exists None, w. split; [reflexivity|].
    unfold get_integrations, bind.
    rewrite verify_project_set by (rewrite Hpid; exact Hid).
    rewrite Hint. reflexivity.
  - destruct (Hpe Hid) as (_ & _ & _ & _ & Hone & _).
    exists None, w. split; [reflexivity|].
    unfold get_integration, bind.
    rewrite verify_project_set by (rewrite Hpid; exact Hid).
    rewrite Hone. simpl. rewrite Hfill by reflexivity.
    rewrite append_empty_r. reflexivity.
  - destruct (Hpe Hid) as (_ & _ & _ & _ & _ & Hst).
    exists (Some (length (heap w))), (mkWorld (heap w ++ [exclude_linked]) (log w)).
    split; [reflexivity|].
    unfold get_integration_stories, bind.
    rewrite verify_project_set by (rewrite Hpid; exact Hid).
    simpl. rewrite Hst. simpl. rewrite Hfill by reflexivity. reflexivity.
Qed.

Lemma _get_all_first_endpoint server self E q fuel w :
  exists r rest,
    log (snd (_get_all server (S fuel) self E q w)) = log w ++ r :: rest /\
    req_endpoint r = E.
Proof.
  destruct (_get_all_trace server (S fuel) self E q w) as (reqs & Hlog & Htr & _ & Hne).
  destruct reqs as [|r rest]; [exfalso; apply Hne; [discriminate | reflexivity]|].
  exists r, rest. split; [exact Hlog|].
  apply (trace_head _ _ _ _ _ _ Htr).
Qed.

Lemma bind_first_request {A B} (m : M A) (k : A -> M B) w r rest :
  log (snd (m w)) = log w ++ r :: rest ->
  (forall x w1, exists more, log (snd (k x w1)) = log w1 ++ more) ->
  exists rest', log (snd (bind m k w)) = log w ++ r :: rest'.
Proof.
  intros Hlog Hk. unfold bind. destruct (m w) as [[x|e|] w1]; simpl in *.
  - destruct (Hk x w1) as (more & Hmore). exists (rest ++ more).
    rewrite Hmore, Hlog, <- app_assoc. reflexivity.
  - exists rest. exact Hlog.
  - exists rest. exact Hlog.
Qed.

(** X1.  For a client built by [__init__] with the identifier the method
    needs, and a root and a project identifier without braces ([{] or [}],
    which [format] would read as part of a field), the first
    request of every public method goes to the URL of the method under
    the root: [<root>/projects/<project>/stories] for the two searches,
    [.../stories/<id>/activity], [.../memberships],
    [<root>/accounts/<account>/memberships], [.../integrations],
    [.../integrations/<id>] and [.../integrations/<id>/stories]; the root
    is the default one when none or an empty one was given. *)
Theorem X1_first_request_url server py_repr py_field api_token account project api_root
    w0 c fuel m w
    (Hinit : fst (__init__ py_repr api_token account project api_root w0) = Ret c)
    (Hid : py_truthy (match requires m with Project => project | Account => account end)
           = true)
    (Hroot : brace_free (root_of api_root) = true)
    (Hproj : brace_free (py_str py_repr project) = true) :
  exists r rest,
    log (snd (invoke server py_repr py_field (S fuel) c m w)) = log w ++ r :: rest /\
    req_endpoint r = url_of py_repr (root_of api_root) account project m.
Proof.
  destruct (is_single m) eqn:Hsingle.
  - destruct (invoke_single_run server py_repr py_field api_token account project api_root
                w0 c (S fuel) m w Hinit Hid Hroot Hproj Hsingle)
      as (q & w1 & Hlog & Hrun).
    rewrite Hrun, _get_run. simpl. rewrite Hlog.
    eexists _, []. split; reflexivity.
  - destruct (init_endpoints _ _ _ _ _ _ _ Hinit) as (Hpid & Haid & Hpe & Hae).
    destruct m; try discriminate; simpl in Hid; destruct (Hpe Hid)
      as (Hstories & _ & _ & Hint & _); unfold invoke, url_of.
    + assert (Hm : exists r rest,
                 log (snd (get_stories_by_filter server (S fuel) c pivotal_filter w))
                 = log w ++ r :: rest /\
                 req_endpoint r = root_of api_root +:+ "/projects/"
                                  +:+ py_str py_repr project +:+ "/stories").
      { rewrite (get_stories_by_filter_run server (S fuel) c pivotal_filter w _
                   ltac:(rewrite Hpid; exact Hid) Hstories).
        apply (_get_all_first_endpoint server c _ (Some (length (heap w))) fuel
                 (mkWorld (heap w ++ [<["filter" := pivotal_filter]>
                                        (heap w !!! api_filter c)]) (log w))). }
      destruct Hm as (r & rest & Hlog & HE).
      destruct (bind_first_request
                  (get_stories_by_filter server (S fuel) c pivotal_filter)
                  (fun l => ret (JArr l)) w r rest Hlog) as (rest' & Hlog').
      { intros x w2. exists []. rewrite app_nil_r. reflexivity. }
      exists r, rest'. split; [exact Hlog' | exact HE].
    + assert (Hm : exists r rest,
                 log (snd (get_stories_by_label server py_repr (S fuel) c label w))
                 = log w ++ r :: rest /\
                 req_endpoint r = root_of api_root +:+ "/projects/"
                                  +:+ py_str py_repr project +:+ "/stories").
      { unfold get_stories_by_label, bind.
        rewrite verify_project_set by (rewrite Hpid; exact Hid).
        simpl. rewrite Hstories. simpl.
        apply (_get_all_first_endpoint server c _ (Some (length (heap w))) fuel
                 (mkWorld (heap w ++ [<["filter" :=
                                          JStr ("label:" +:+ quote
                                                +:+ py_str py_repr label +:+ quote)]> ∅])
                          (log w))). }
      destruct Hm as (r & rest & Hlog & HE).
      destruct (bind_first_request
                  (get_stories_by_label server py_repr (S fuel) c label)
                  (fun l => ret (JArr l)) w r rest Hlog) as (rest' & Hlog').
      { intros x w2. exists []. rewrite app_nil_r. reflexivity. }
      exists r, rest'. split; [exact Hlog' | exact HE].
    + unfold as_list, get_all_integration_stories.
      assert (Hfirst : log (snd (get_integrations server c w))
                       = log w ++ [sent c (root_of api_root +:+ "/projects/"
                                            +:+ py_str py_repr project
                                            +:+ "/integrations") None false w]).
      { assert (Hrun : get_integrations server c w
                       = _get server c (root_of api_root +:+ "/projects/"
                                        +:+ py_str py_repr project
                                        +:+ "/integrations") None false w).
        { unfold get_integrations, bind.
          rewrite verify_project_set by (rewrite Hpid; exact Hid).
          rewrite Hint. reflexivity. }
        rewrite Hrun, _get_run. reflexivity. }
      destruct (bind_first_request (get_integrations server c)
                  (fun integrations =>
                     integrations <- lift (py_iter integrations) ;;
                     integration_stories_loop server py_repr py_field c integrations [])
                  w _ [] Hfirst) as (rest & Hlog).
      { intros x w1. unfold bind, lift. destruct (py_iter x) as [ints| |]; simpl;
          try (exists []; rewrite app_nil_r; reflexivity).
        destruct (logs_only_integration_stories_loop server py_repr py_field c ints [] w1)
          as (reqs & Hreqs & _).
        exists reqs. exact Hreqs. }
      destruct (bind_first_request
                  (get_all_integration_stories server py_repr py_field c)
                  (fun l => ret (JArr l)) w _ rest Hlog) as (rest' & Hlog').
      { intros x w2. exists []. rewrite app_nil_r. reflexivity. }
      eexists _, rest'. split; [exact Hlog' | reflexivity].
Qed.

Lemma X1_first_request_url_witness :
  exists r rest,
    log (snd (invoke (scripted []) no_repr no_field 1 demo_client
                (GetStoryActivities (JNum 5)) demo_world))
    = log demo_world ++ r :: rest /\
    req_endpoint r
    = "https://www.pivotaltracker.com/services/v5/projects/99/stories/5/activity".
Proof.
  apply (X1_first_request_url (scripted []) no_repr no_field "token" JNull (JNum 99) None
           (mkWorld [] []) demo_client 0 (GetStoryActivities (JNum 5)) demo_world);
    reflexivity.
Defined.

(** With a brace in the project identifier the templates cannot be
    filled: the call ends in the error of [format], and sends nothing. *)
Example brace_in_project_id :
  forall c w0 c' w0',
    __init__ no_repr "token" JNull (JStr "a}b") None (mkWorld [] []) = (Ret c, w0) ->
    __init__ no_repr "token" JNull (JStr "{}") None (mkWorld [] []) = (Ret c', w0') ->
    invoke (scripted []) no_repr no_field 1 c (GetStoryActivities (JNum 5)) w0
    = (Raise ValueError, w0) /\
    invoke (scripted []) no_repr no_field 1 c' (GetIntegration (JNum 5)) w0'
    = (Raise IndexError, w0').
Proof.
  intros c w0 c' w0' H H'.
  unfold __init__, dict_new, bind, ret in H, H'. simpl in H, H'.
  inversion H; subst c w0. inversion H'; subst c' w0'. split; reflexivity.
Qed.

(** ** Methods of one GET *)

Lemma get_verdict_status E r :
  ~ 200 <= status_code r < 300 ->
  get_verdict E (NetReturn (Some r))
  = Raise (ApiError ("GET " +:+ E +:+ " " +:+ str_of_int (status_code r))).
Proof.
  intros Hs. simpl.
  destruct ((200 <=? status_code r) && (status_code r <? 300)) eqn:Hb; [|reflexivity].
  apply andb_true_iff in Hb. rewrite Z.leb_le, Z.ltb_lt in Hb. contradiction.
Qed.

(** X8.  For a client built by [__init__] with the identifier the method
    needs, and a root and a project identifier without braces, a method of
    one GET ([get_story_activities], [get_project_memberships],
    [get_account_memberships], [get_integrations], [get_integration],
    [get_integration_stories]) sends exactly one request, to its URL;
    when the response is a 2xx with a JSON body the method returns that
    body as it is, and when the status is outside [200, 300) it raises
    the [ApiError] whose message is [GET <the URL> <the status>]. *)
Theorem X8_single_fetch_result server py_repr py_field api_token account project api_root
    w0 c fuel m w o
    (Hinit : fst (__init__ py_repr api_token account project api_root w0) = Ret c)
    (Hid : py_truthy (match requires m with Project => project | Account => account end)
           = true)
    (Hroot : brace_free (root_of api_root) = true)
    (Hproj : brace_free (py_str py_repr project) = true)
    (Hsingle : is_single m = true)
    (Hans : answers server (log w) [o]) :
  let url := url_of py_repr (root_of api_root) account project m in
  (exists req,
     log (snd (invoke server py_repr py_field fuel c m w)) = log w ++ [req] /\
     req_endpoint req = url) /\
  (forall j, delivers o j -> fst (invoke server py_repr py_field fuel c m w) = Ret j) /\
  (forall r, o = NetReturn (Some r) -> ~ 200 <= status_code r < 300 ->
     fst (invoke server py_repr py_field fuel c m w)
     = Raise (ApiError ("GET " +:+ url +:+ " " +:+ str_of_int (status_code r)))).
Proof.
  intros url.
  destruct (invoke_single_run server py_repr py_field api_token account project api_root
              w0 c fuel m w Hinit Hid Hroot Hproj Hsingle)
    as (q & w1 & Hlog & Hrun).
  fold url in Hrun. rewrite Hrun, _get_run. simpl fst. simpl snd. simpl log.
  rewrite Hlog. rewrite (answers_head _ _ _ _ _ Hans).
  split; [|split].
  - eexists. split; reflexivity.
  - intros j Hj. apply get_verdict_delivers. exact Hj.
  - intros r -> Hs. apply get_verdict_status. exact Hs.
Qed.

Lemma X8_single_fetch_result_witness :
  fst (invoke (scripted [NetReturn (Some (mkResponse 403 None))]) no_repr no_field 0
         demo_client GetProjectMemberships demo_world)
  = Raise (ApiError
      "GET https://www.pivotaltracker.com/services/v5/projects/99/memberships 403").
Proof.
  refine (proj2 (proj2 (X8_single_fetch_result
            (scripted [NetReturn (Some (mkResponse 403 None))]) no_repr no_field
            "token" JNull (JNum 99) None (mkWorld [] []) demo_client 0
            GetProjectMemberships demo_world
            (NetReturn (Some (mkResponse 403 None))) _ _ _ _ _ _))
          (mkResponse 403 None) _ _).
  - reflexivity.
  - reflexivity.
  - reflexivity.
  - reflexivity.
  - reflexivity.
  - apply scripted_answers.
  - reflexivity.
  - simpl. lia.
Defined.

(** ** Identifiers that count as missing *)

(** X3.  The guards test the truth value of the identifier, so [0], the
    empty string and [False] are refused like [None]: the call raises the
    guard's [ApiError] and sends nothing. *)
Theorem X3_falsy_identifier_refused server py_repr py_field fuel self m w
    (Hfalsy : In (ident_of self (requires m)) falsy_ids) :
  invoke server py_repr py_field fuel self m w
  = (Raise (ApiError (kind_label (requires m)
                      +:+ " ID not set on API connection and is required by "
                      +:+ guard_name m +:+ "().")), w).
Proof.
  assert (Hf : py_truthy (ident_of self (requires m)) = false).
  { destruct Hfalsy as [<-|[<-|[<-|[]]]]; reflexivity. }
  destruct m; simpl in Hf;
    unfold invoke, as_list, get_stories_by_filter, get_stories_by_label,
      get_story_activities, get_project_memberships, get_account_memberships,
      get_integrations, get_integration, get_integration_stories,
      get_all_integration_stories, get_integrations;
    unfold bind;
    rewrite ?verify_project_unset, ?verify_account_unset by exact Hf;
    reflexivity.
Qed.

Lemma X3_falsy_identifier_refused_witness :
  invoke (scripted []) no_repr no_field 5 zero_client GetProjectMemberships demo_world
  = (Raise (ApiError
       "Project ID not set on API connection and is required by get_project_memberships()."),
     demo_world).
Proof.
  apply (X3_falsy_identifier_refused (scripted []) no_repr no_field 5 zero_client
           GetProjectMemberships demo_world).
  left. reflexivity.
Defined.

(** ** A server without a last page *)

Lemma _get_all_loop_endless server self E l fuel :
  (forall hist, exists x items limit,
      serves_page E (server hist) (x :: items, limit)) ->
  forall results w off,
    (l < length (heap w))%nat ->
    (heap w !!! l) !! "offset" = Some (JNum off) ->
    fst (_get_all_loop server fuel self E l results w) = OutOfFuel /\
    exists reqs,
      log (snd (_get_all_loop server fuel self E l results w)) = log w ++ reqs /\
      length reqs = fuel.
Proof.
  intros Hsrv. induction fuel as [|fuel IH]; intros results w off Hl Hoff.
  - simpl. split; [reflexivity|]. exists []. rewrite app_nil_r. auto.
  - rewrite (_get_all_loop_step server self E l results w fuel _ _ Hl eq_refl Hoff).
    set (req := sent self E (Some l) true w).
    destruct (Hsrv (log w ++ [req])) as (x & items & limit & j & Hg & Hv).
    rewrite Hg. simpl rbind. simpl in Hv. rewrite Hv.
    cbv beta iota delta [py_add].
    set (w1 := mkWorld _ _).
    destruct (IH (results ++ x :: items) w1 (off + limit)) as (Hout & reqs & Hlog & Hlen).
    + unfold w1; simpl. rewrite length_app, length_insert. lia.
    + unfold w1; simpl. rewrite lookup_total_app_l by (rewrite length_insert; lia).
      rewrite list_lookup_total_insert_eq by exact Hl. apply lookup_insert_eq.
    + split; [exact Hout|]. exists (req :: reqs). split.
      * rewrite Hlog. unfold w1; simpl. rewrite <- app_assoc. reflexivity.
      * simpl. rewrite Hlen. reflexivity.
Qed.

(** X4.  The loop of [_get_all] has no bound of its own: against a server
    that has a page with records for every request, it does not return,
    however long it is followed, and it sends one request per iteration. *)
Theorem X4_no_empty_page_no_return server self E q w fuel
    (Hpages : forall hist, exists x items limit,
        serves_page E (server hist) (x :: items, limit)) :
  fst (_get_all server fuel self E q w) = OutOfFuel /\
  length (requests_of w (snd (_get_all server fuel self E q w))) = fuel.
Proof.
  rewrite _get_all_run.
  destruct (_get_all_loop_endless server self E (length (heap w)) fuel Hpages []
              (mkWorld (heap w ++ [start (snapshot w q)]) (log w)) 0)
    as (Hout & reqs & Hlog & Hlen); simpl.
  - rewrite length_app. simpl. lia.
  - rewrite heap_fresh_total. apply lookup_insert_eq.
  - split; [exact Hout|].
    rewrite (requests_of_app w _ reqs Hlog). exact Hlen.
Qed.

Lemma X4_no_empty_page_no_return_witness :
  fst (_get_all endless 7 demo_client "E" None demo_world) = OutOfFuel /\
  length (requests_of demo_world
            (snd (_get_all endless 7 demo_client "E" None demo_world))) = 7%nat.
Proof.
  apply (X4_no_empty_page_no_return endless demo_client "E" None demo_world 7).
  intros hist. exists (JStr "again"), [], 1.
  apply envelope_serves_page. discriminate.
Defined.

(** ** Pages the loop cannot use *)

(** After [pages], the fetch stands before its next request. *)
Lemma _get_all_reach server self E q script pages tail fuel w :
  Forall2 (serves_page E) script pages ->
  answers server (log w) (script ++ tail) ->
  exists l w2 reqs off,
    _get_all server (length pages + fuel) self E q w
    = _get_all_loop server fuel self E l (records pages) w2 /\
    log w2 = log w ++ reqs /\
    length reqs = length pages /\
    (l < length (heap w2))%nat /\
    (heap w2 !!! l) !! "offset" = Some (JNum off) /\
    answers server (log w2) tail.
Proof.
  intros Hpages Hans. rewrite _get_all_run.
  set (w0 := mkWorld _ _).
  destruct (_get_all_loop_pages server self E (length (heap w)) script pages Hpages
              tail fuel [] w0 0)
    as (w2 & reqs & off2 & Hrun & Hlog & Hlen & Hl2 & Hoff2 & Hans2).
  - unfold w0; simpl. rewrite length_app; simpl. lia.
  - unfold w0; simpl. rewrite heap_fresh_total. apply lookup_insert_eq.
  - exact Hans.
  - exists (length (heap w)), w2, reqs, off2. auto 10.
Qed.

(** A page that stops the loop with an error. *)
Lemma _get_all_loop_raise server self E l o script fuel results w off j :
  (l < length (heap w))%nat ->
  (heap w !!! l) !! "offset" = Some (JNum off) ->
  answers server (log w) (o :: script) ->
  get_verdict E o = Ret j ->
  (forall e, page_verdict j = Raise e ->
     exists w', _get_all_loop server (S fuel) self E l results w = (Raise e, w') /\
                log w' = log w ++ [sent self E (Some l) true w]) /\
  (forall items limit e,
     page_verdict j = Ret (Some (items, limit)) ->
     py_add (JNum off) limit = Raise e ->
     exists w', _get_all_loop server (S fuel) self E l results w = (Raise e, w') /\
                log w' = log w ++ [sent self E (Some l) true w]).
Proof.
  intros Hl Hoff Hans Hg.
  rewrite (_get_all_loop_step server self E l results w _ _ _ Hl eq_refl Hoff).
  rewrite (answers_head _ _ _ _ _ Hans), Hg. simpl rbind. split.
  - intros e He. rewrite He. eexists. split; reflexivity.
  - intros items limit e Hv Hadd. rewrite Hv, Hadd. eexists. split; reflexivity.
Qed.

Lemma next_limit_of_reported j limit :
  reported_limit j = Some limit -> next_limit j = Ret limit.
Proof.
  unfold reported_limit, next_limit.
  destruct j as [| | | | |fields]; try discriminate. simpl.
  destruct (assoc "pagination" fields) as [[| | | | |pg]|]; try discriminate.
  simpl. intros ->. reflexivity.
Qed.

Lemma py_add_no_int off limit :
  int_of limit = None -> py_add (JNum off) limit = Raise TypeError.
Proof. destruct limit; simpl; try discriminate; reflexivity. Qed.

Lemma page_verdict_records fields x items limit :
  assoc "data" fields = Some (JArr (x :: items)) ->
  next_limit (JObj fields) = Ret limit ->
  page_verdict (JObj fields) = Ret (Some (x :: items, limit)).
Proof.
  intros Hd Hl. unfold page_verdict. simpl. rewrite Hd. simpl. rewrite Hl. reflexivity.
Qed.

Lemma page_verdict_malformed j e : malformed j e -> page_verdict j = Raise e.
Proof.
  intros [j' Hno|fields v Hd Hv|fields x items v Hd Hp Hno].
  - destruct j' as [| | | | |fields]; try reflexivity.
    exfalso. apply (Hno fields). reflexivity.
  - unfold page_verdict. simpl. rewrite Hd. simpl.
    destruct Hv as [->|[[b ->]|[n ->]]]; reflexivity.
  - unfold page_verdict, next_limit. simpl. rewrite Hd. simpl. rewrite Hp. simpl.
    destruct v as [| | | | |pg]; try reflexivity.
    exfalso. apply (Hno pg). reflexivity.
Qed.

(** X5.  A page with records whose [pagination.limit] is no number (a
    string, [null], a list) stops the fetch with a [TypeError], raised
    when the offset is moved: nothing is returned, the records of the
    earlier pages included, and no further request is sent. *)
Theorem X5_limit_not_a_number server self E q w fuel script pages o fields x items limit
    (Hpages : Forall2 (serves_page E) script pages)
    (Hans : answers server (log w) (script ++ [o]))
    (Hbody : delivers o (JObj fields))
    (Hdata : assoc "data" fields = Some (JArr (x :: items)))
    (Hlimit : reported_limit (JObj fields) = Some limit)
    (Hint : int_of limit = None)
    (Hfuel : (length pages < fuel)%nat) :
  exists w' reqs,
    _get_all server fuel self E q w = (Raise TypeError, w') /\
    log w' = log w ++ reqs /\
    length reqs = S (length pages).
Proof.
  replace fuel with (length pages + S (fuel - S (length pages)))%nat by lia.
  destruct (_get_all_reach server self E q script pages [o]
              (S (fuel - S (length pages))) w Hpages Hans)
    as (l & w2 & reqs & off & Hrun & Hlog & Hlen & Hl & Hoff & Hans2).
  destruct (_get_all_loop_raise server self E l o [] (fuel - S (length pages))
              (records pages) w2 off (JObj fields) Hl Hoff Hans2
              (get_verdict_delivers E o _ Hbody)) as (_ & Hadd).
  destruct (Hadd (x :: items) limit TypeError) as (w' & Hrun' & Hlog').
  - apply page_verdict_records; [exact Hdata|].
    apply next_limit_of_reported. exact Hlimit.
  - apply py_add_no_int. exact Hint.
  - exists w', (reqs ++ [sent self E (Some l) true w2]).
    rewrite Hrun, Hrun'. split; [reflexivity|]. split.
    + rewrite Hlog', Hlog, <- app_assoc. reflexivity.
    + rewrite length_app, Hlen. simpl. lia.
Qed.

Lemma X5_limit_not_a_number_witness :
  exists w' reqs,
    _get_all
      (scripted [ok_response (envelope [JStr "a"] 1);
                 ok_response (JObj [("data", JArr [JStr "b"]);
                                    ("pagination", JObj [("limit", JStr "1")])])])
      5 demo_client "E" None demo_world
    = (Raise TypeError, w') /\
    log w' = log demo_world ++ reqs /\
    length reqs = 2%nat.
Proof.
  apply (X5_limit_not_a_number
           (scripted [ok_response (envelope [JStr "a"] 1);
                      ok_response (JObj [("data", JArr [JStr "b"]);
                                         ("pagination", JObj [("limit", JStr "1")])])])
           demo_client "E" None demo_world 5
           [ok_response (envelope [JStr "a"] 1)] [([JStr "a"], 1)]
           (ok_response (JObj [("data", JArr [JStr "b"]);
                               ("pagination", JObj [("limit", JStr "1")])]))
           [("data", JArr [JStr "b"]); ("pagination", JObj [("limit", JStr "1")])]
           (JStr "b") [] (JStr "1")).
  - repeat constructor. apply envelope_serves_page. discriminate.
  - apply scripted_answers.
  - eexists. split; [reflexivity|]. split; [simpl; lia | reflexivity].
  - reflexivity.
  - reflexivity.
  - reflexivity.
  - simpl. lia.
Defined.

(** X6.  A response object without a [data] key ends the fetch like an
    empty page: the records gathered so far are returned, after that one
    more request. *)
Theorem X6_missing_data_ends_fetch server self E q w fuel script pages o fields
    (Hpages : Forall2 (serves_page E) script pages)
    (Hans : answers server (log w) (script ++ [o]))
    (Hbody : delivers o (JObj fields))
    (Hdata : assoc "data" fields = None)
    (Hfuel : (length pages < fuel)%nat) :
  exists w' reqs,
    _get_all server fuel self E q w = (Ret (records pages), w') /\
    log w' = log w ++ reqs /\
    length reqs = S (length pages).
Proof.
  destruct (_get_all_pages server self E q script pages o fuel w Hpages Hans Hfuel)
    as (w' & reqs & Hlog & Hlen & Hempty & _).
  exists w', reqs. split; [|auto].
  apply Hempty. exists (JObj fields). split.
  - apply get_verdict_delivers. exact Hbody.
  - unfold page_verdict. simpl. rewrite Hdata. reflexivity.
Qed.

Lemma X6_missing_data_ends_fetch_witness :
  exists w' reqs,
    _get_all
      (scripted [ok_response (envelope [JStr "a"] 1);
                 ok_response (JObj [("kind", JStr "error")])])
      5 demo_client "E" None demo_world
    = (Ret [JStr "a"], w') /\
    log w' = log demo_world ++ reqs /\
    length reqs = 2%nat.
Proof.
  apply (X6_missing_data_ends_fetch
           (scripted [ok_response (envelope [JStr "a"] 1);
                      ok_response (JObj [("kind", JStr "error")])])
           demo_client "E" None demo_world 5
           [ok_response (envelope [JStr "a"] 1)] [([JStr "a"], 1)]
           (ok_response (JObj [("kind", JStr "error")]))
           [("kind", JStr "error")]).
  - repeat constructor. apply envelope_serves_page. discriminate.
  - apply scripted_answers.
  - eexists. split; [reflexivity|]. split; [simpl; lia | reflexivity].
  - reflexivity.
  - simpl. lia.
Defined.

(** X7.  A 2xx body the loop cannot read stops the fetch with the error
    of the failed read, and nothing is returned: an [AttributeError] when
    the body is no object (a bare list, as the service sends without the
    envelope) or when [pagination] is no object, a [TypeError] when [data]
    is [null], a boolean or a number. *)
Theorem X7_malformed_page_raises server self E q w fuel script pages o j e
    (Hpages : Forall2 (serves_page E) script pages)
    (Hans : answers server (log w) (script ++ [o]))
    (Hbody : delivers o j)
    (Hbad : malformed j e)
    (Hfuel : (length pages < fuel)%nat) :
  exists w' reqs,
    _get_all server fuel self E q w = (Raise e, w') /\
    log w' = log w ++ reqs /\
    length reqs = S (length pages).
Proof.
  replace fuel with (length pages + S (fuel - S (length pages)))%nat by lia.
  destruct (_get_all_reach server self E q script pages [o]
              (S (fuel - S (length pages))) w Hpages Hans)
    as (l & w2 & reqs & off & Hrun & Hlog & Hlen & Hl & Hoff & Hans2).
  destruct (_get_all_loop_raise server self E l o [] (fuel - S (length pages))
              (records pages) w2 off j Hl Hoff Hans2
              (get_verdict_delivers E o _ Hbody)) as (Hraise & _).
  destruct (Hraise e (page_verdict_malformed j e Hbad)) as (w' & Hrun' & Hlog').
  exists w', (reqs ++ [sent self E (Some l) true w2]).
  rewrite Hrun, Hrun'. split; [reflexivity|]. split.
  - rewrite Hlog', Hlog, <- app_assoc. reflexivity.
  - rewrite length_app, Hlen. simpl. lia.
Qed.

Lemma X7_malformed_page_raises_witness :
  exists w' reqs,
    _get_all (scripted [ok_response (JArr [JStr "a"; JStr "b"])])
      5 demo_client "E" None demo_world
    = (Raise AttributeError, w') /\
    log w' = log demo_world ++ reqs /\
    length reqs = 1%nat.
Proof.
  apply (X7_malformed_page_raises
           (scripted [ok_response (JArr [JStr "a"; JStr "b"])])
           demo_client "E" None demo_world 5 [] []
           (ok_response (JArr [JStr "a"; JStr "b"]))
           (JArr [JStr "a"; JStr "b"]) AttributeError).
  - constructor.
  - apply scripted_answers.
  - eexists. split; [reflexivity|]. split; [simpl; lia | reflexivity].
  - apply malformed_body. discriminate.
  - simpl. lia.
Defined.

(** ** The fetches of [get_all_integration_stories] *)

(** X9.  For a client whose URL of the stories of an integration is
    [<integrations>/{}/stories], with no brace in the URL of the
    integrations, as [__init__] sets them: when [get_integrations] delivers
    a list of integrations and the server delivers a list of stories for
    each, [get_all_integration_stories] returns the stories in the order of
    the integrations and has sent one request for the integrations and then
    one per integration, to [<integrations>/<id>/stories], in that order;
    an integration without [id] is asked for under [None]. *)
Theorem X9_one_fetch_per_integration server py_repr py_field self u w o0 ints outs parts
    (Hid : py_truthy (project_id self) = true)
    (Hu : api_integrations self = Some u)
    (Ht : api_integration_stories self = Some (u +:+ "/{}/stories"))
    (Hbf : brace_free u = true)
    (Hans : answers server (log w) (o0 :: outs))
    (Hints : delivers o0 (JArr (map JObj ints)))
    (Hstories : Forall2 (fun o s => delivers o (JArr s)) outs parts)
    (Hlen : length ints = length parts) :
  exists w' reqs,
    get_all_integration_stories server py_repr py_field self w = (Ret (concat parts), w') /\
    log w' = log w ++ reqs /\
    map req_endpoint reqs
    = u :: map (fun f => u +:+ "/" +:+ py_str py_repr (integration_id f) +:+ "/stories")
             ints.
Proof.
  destruct (all_integration_stories_run server py_repr py_field self u w o0 ints outs parts
              Hid Hu Ht Hbf Hans Hints Hstories Hlen)
    as (w' & r0 & reqs & Hrun & Hlog & HE & _ & Hreqs).
  exists w', (r0 :: reqs). split; [exact Hrun|]. split; [exact Hlog|].
  simpl. rewrite HE, (asks_stories_endpoints _ _ _ _ Hreqs). reflexivity.
Qed.

Lemma X9_one_fetch_per_integration_witness :
  exists w' reqs,
    get_all_integration_stories
      (scripted [ok_response (JArr [JObj [("id", JNum 7)]; JObj [("name", JStr "x")]]);
                 ok_response (JArr [JStr "a"; JStr "b"]);
                 ok_response (JArr [JStr "c"])])
      no_repr no_field demo_client demo_world
    = (Ret [JStr "a"; JStr "b"; JStr "c"], w') /\
    log w' = log demo_world ++ reqs /\
    map req_endpoint reqs
    = ["https://www.pivotaltracker.com/services/v5/projects/99/integrations";
       "https://www.pivotaltracker.com/services/v5/projects/99/integrations/7/stories";
       "https://www.pivotaltracker.com/services/v5/projects/99/integrations/None/stories"].
Proof.
  apply (X9_one_fetch_per_integration
           (scripted [ok_response (JArr [JObj [("id", JNum 7)]; JObj [("name", JStr "x")]]);
                      ok_response (JArr [JStr "a"; JStr "b"]);
                      ok_response (JArr [JStr "c"])])
           no_repr no_field demo_client
           "https://www.pivotaltracker.com/services/v5/projects/99/integrations"
           demo_world
           (ok_response (JArr [JObj [("id", JNum 7)]; JObj [("name", JStr "x")]]))
           [[("id", JNum 7)]; [("name", JStr "x")]]
           [ok_response (JArr [JStr "a"; JStr "b"]); ok_response (JArr [JStr "c"])]
           [[JStr "a"; JStr "b"]; [JStr "c"]]).
  - reflexivity.
  - reflexivity.
  - reflexivity.
  - reflexivity.
  - apply scripted_answers.
  - eexists. split; [reflexivity|]. split; [simpl; lia | reflexivity].
  - repeat constructor;
      (eexists; split; [reflexivity|]; split; [simpl; lia | reflexivity]).
  - reflexivity.
Defined.

(** X10.  For such a client, when the fetch of the stories of one
    integration fails, [get_all_integration_stories] raises that error:
    the stories of the integrations before it are not returned, and the
    integrations after it are not asked for; the failed request, to
    [<integrations>/<id>/stories] of that integration, is the last one. *)
Theorem X10_failed_integration_aborts server py_repr py_field self u w o0 done f rest
    outs parts o e
    (Hid : py_truthy (project_id self) = true)
    (Hu : api_integrations self = Some u)
    (Ht : api_integration_stories self = Some (u +:+ "/{}/stories"))
    (Hbf : brace_free u = true)
    (Hans : answers server (log w) (o0 :: outs ++ [o]))
    (Hints : delivers o0 (JArr (map JObj (done ++ f :: rest))))
    (Hstories : Forall2 (fun o s => delivers o (JArr s)) outs parts)
    (Hlen : length done = length parts)
    (Hfail : get_verdict (u +:+ "/" +:+ py_str py_repr (integration_id f) +:+ "/stories") o
             = Raise e) :
  exists w' reqs,
    get_all_integration_stories server py_repr py_field self w = (Raise e, w') /\
    log w' = log w ++ reqs /\
    map req_endpoint reqs
    = u :: map (fun f => u +:+ "/" +:+ py_str py_repr (integration_id f) +:+ "/stories")
             (done ++ [f]).
Proof.
  destruct (integrations_fetched server py_repr py_field self u w o0 (outs ++ [o]) _
              Hid Hu Hans Hints) as (w1 & Hrun0 & Hlog0 & Hans1).
  rewrite Hrun0. rewrite map_app. cbn [map].
  destruct (integration_stories_loop_prefix server py_repr py_field self u outs parts
              Hid Ht Hbf Hstories done (JObj f :: map JObj rest) [o] [] w1 Hlen Hans1)
    as (w2 & reqs & Hrun & Hlog & Hreqs & Hans2).
  rewrite Hrun.
  destruct (integration_stories_loop_step server py_repr py_field self u f (map JObj rest)
              ([] ++ concat parts) w2 o [] Hid Ht Hbf Hans2)
    as (w3 & req & Hlog3 & (HE3 & _) & _ & Hraise).
  rewrite (Hraise e Hfail).
  exists w3, (sent self u None false w :: reqs ++ [req]). split; [reflexivity|]. split.
  - rewrite Hlog3, Hlog, Hlog0, <- !app_assoc. reflexivity.
  - simpl. rewrite !map_app, (asks_stories_endpoints _ _ _ _ Hreqs). simpl.
    rewrite HE3. reflexivity.
Qed.

Lemma X10_failed_integration_aborts_witness :
  exists w' reqs,
    get_all_integration_stories
      (scripted [ok_response (JArr [JObj [("id", JNum 7)]; JObj [("id", JNum 8)];
                                    JObj [("id", JNum 9)]]);
                 ok_response (JArr [JStr "a"]);
                 NetReturn (Some (mkResponse 500 None))])
      no_repr no_field demo_client demo_world
    = (Raise (ApiError
         "GET https://www.pivotaltracker.com/services/v5/projects/99/integrations/8/stories 500"),
       w') /\
    log w' = log demo_world ++ reqs /\
    map req_endpoint reqs
    = ["https://www.pivotaltracker.com/services/v5/projects/99/integrations";
       "https://www.pivotaltracker.com/services/v5/projects/99/integrations/7/stories";
       "https://www.pivotaltracker.com/services/v5/projects/99/integrations/8/stories"].
Proof.
  apply (X10_failed_integration_aborts
           (scripted [ok_response (JArr [JObj [("id", JNum 7)]; JObj [("id", JNum 8)];
                                         JObj [("id", JNum 9)]]);
                      ok_response (JArr [JStr "a"]);
                      NetReturn (Some (mkResponse 500 None))])
           no_repr no_field demo_client
           "https://www.pivotaltracker.com/services/v5/projects/99/integrations"
           demo_world
           (ok_response (JArr [JObj [("id", JNum 7)]; JObj [("id", JNum 8)];
                               JObj [("id", JNum 9)]]))
           [[("id", JNum 7)]] [("id", JNum 8)] [[("id", JNum 9)]]
           [ok_response (JArr [JStr "a"])] [[JStr "a"]]
           (NetReturn (Some (mkResponse 500 None)))).
  - reflexivity.
  - reflexivity.
  - reflexivity.
  - reflexivity.
  - apply scripted_answers.
  - eexists. split; [reflexivity|]. split; [simpl; lia | reflexivity].
  - repeat constructor.
    eexists. split; [reflexivity|]. split; [simpl; lia | reflexivity].
  - reflexivity.
  - reflexivity.
Defined.

(** ** The search by label *)

(** X11.  Every request of [get_stories_by_label] carries, next to the
    cursor and the envelope flag, the one parameter [filter], whose value
    is [label:] followed by the label between double quotes; unlike
    [get_stories_by_filter] it sends no [date_format]. *)
Theorem X11_label_filter server py_repr fuel self label w :
  exists reqs,
    log (snd (get_stories_by_label server py_repr fuel self label w)) = log w ++ reqs /\
    Forall (fun r =>
              (exists limit offset,
                 req_params r
                 = <["envelope" := JStr "true"]>
                     (<["offset" := offset]>
                        (<["limit" := limit]>
                           (<["filter" := JStr ("label:" +:+ quote
                                                +:+ py_str py_repr label +:+ quote)]> ∅)))) /\
              req_params r !! "date_format" = None) reqs.
Proof.
  change (logs_only
            (fun r =>
              (exists limit offset,
                 req_params r
                 = <["envelope" := JStr "true"]>
                     (<["offset" := offset]>
                        (<["limit" := limit]>
                           (<["filter" := JStr ("label:" +:+ quote
                                                +:+ py_str py_repr label +:+ quote)]> ∅)))) /\
              req_params r !! "date_format" = None)
            (get_stories_by_label server py_repr fuel self label) w).
  unfold get_stories_by_label.
  apply logs_only_bind; [apply logs_only_verify_project|]. intros _ _.
  rewrite verify_project_world.
  apply logs_only_bind; [apply logs_only_quiet; reflexivity|]. intros l Hl.
  simpl in Hl. inversion Hl; subst l. simpl snd.
  apply logs_only_bind; [apply logs_only_attr|]. intros uri _. rewrite attr_world.
  eapply logs_only_impl; [|apply logs_only_get_all].
  simpl. rewrite heap_fresh_total. intros r (limit & offset & ->).
  split; [exists limit, offset; reflexivity|].
  rewrite !lookup_insert_ne by discriminate. apply lookup_empty.
Qed.

(** ** A client from [__init__] *)

(** X12.  [__init__] never raises and sends nothing; it adds two
    dictionaries of its own to the store, the headers with the token under
    [X-TrackerToken] and the filter, and from then on every request of
    every public method carries exactly those headers. *)
Theorem X12_init_stores_token py_repr py_field api_token account project api_root w0 :
  exists c,
    fst (__init__ py_repr api_token account project api_root w0) = Ret c /\
    let w := snd (__init__ py_repr api_token account project api_root w0) in
    log w = log w0 /\
    heap w = heap w0 ++ [token_headers api_token; api_filter_default] /\
    heap w !! auth_headers c = Some (token_headers api_token) /\
    heap w !! api_filter c = Some api_filter_default /\
    forall server fuel m,
      exists reqs,
        log (snd (invoke server py_repr py_field fuel c m w)) = log w ++ reqs /\
        Forall (fun r => req_headers r = token_headers api_token) reqs.
Proof.
  unfold __init__, dict_new, bind, ret. simpl. eexists. split; [reflexivity|].
  simpl.
  assert (Hh : ((heap w0 ++ [token_headers api_token]) ++ [api_filter_default])
               !! length (heap w0) = Some (token_headers api_token)).
  { rewrite <- app_assoc. apply list_lookup_middle. reflexivity. }
  split; [reflexivity|]. split; [rewrite <- app_assoc; reflexivity|].
  split; [exact Hh|]. split.
  - apply list_lookup_middle. rewrite length_app. reflexivity.
  - intros server fuel m.
    match goal with
    | |- context [invoke server py_repr py_field fuel ?c m ?w] =>
        destruct (tidy_invoke server py_repr py_field fuel c m (token_headers api_token) w Hh)
          as (_ & reqs & Hlog & Hall)
    end.
    exists reqs. auto.
Qed.

(** ** The searches, as a whole *)

Lemma get_stories_by_label_run server py_repr fuel self label w uri :
  py_truthy (project_id self) = true ->
  api_stories self = Some uri ->
  get_stories_by_label server py_repr fuel self label w
  = _get_all server fuel self uri (Some (length (heap w)))
      (mkWorld (heap w ++ [<["filter" := JStr ("label:" +:+ quote
                                               +:+ py_str py_repr label +:+ quote)]> ∅])
               (log w)).
Proof.
  intros Hid Huri. unfold get_stories_by_label, bind.
  rewrite verify_project_set by exact Hid. simpl. rewrite Huri. reflexivity.
Qed.

(** X13.  With a project identifier set, the two searches return what the
    paginated fetch gathers: when the server answers with pages that hold
    records and then with an empty page, [get_stories_by_filter] and
    [get_stories_by_label] return the records of the pages in order, after
    one request per page and one more. *)
Theorem X13_searches_return_all_pages server py_repr self uri w fuel script pages last
    (Hid : py_truthy (project_id self) = true)
    (Huri : api_stories self = Some uri)
    (Hpages : Forall2 (serves_page uri) script pages)
    (Hlast : serves_empty uri last)
    (Hans : answers server (log w) (script ++ [last]))
    (Hfuel : (length pages < fuel)%nat) :
  (forall pivotal_filter,
     exists w' reqs,
       get_stories_by_filter server fuel self pivotal_filter w
       = (Ret (records pages), w') /\
       log w' = log w ++ reqs /\ length reqs = S (length pages)) /\
  (forall label,
     exists w' reqs,
       get_stories_by_label server py_repr fuel self label w
       = (Ret (records pages), w') /\
       log w' = log w ++ reqs /\ length reqs = S (length pages)).
Proof.
  split.
  - intros f. rewrite (get_stories_by_filter_run server fuel self f w uri Hid Huri).
    destruct (_get_all_pages server self uri (Some (length (heap w))) script pages last
                fuel (mkWorld (heap w ++ [<["filter" := f]> (heap w !!! api_filter self)])
                        (log w)) Hpages Hans Hfuel)
      as (w' & reqs & Hlog & Hlen & Hempty & _).
    exists w', reqs. split; [apply Hempty, Hlast | auto].
  - intros label.
    rewrite (get_stories_by_label_run server py_repr fuel self label w uri Hid Huri).
    destruct (_get_all_pages server self uri (Some (length (heap w))) script pages last
                fuel (mkWorld (heap w ++ [<["filter" := JStr ("label:" +:+ quote
                                             +:+ py_str py_repr label +:+ quote)]> ∅])
                        (log w)) Hpages Hans Hfuel)
      as (w' & reqs & Hlog & Hlen & Hempty & _).
    exists w', reqs. split; [apply Hempty, Hlast | auto].
Qed.

Lemma X13_searches_return_all_pages_witness :
  exists w' reqs,
    get_stories_by_label
      (scripted [ok_response (envelope [JStr "s1"; JStr "s2"] 2);
                 ok_response (envelope [JStr "s3"] 2);
                 ok_response (envelope [] 2)])
      no_repr 5 demo_client (JStr "bug") demo_world
    = (Ret [JStr "s1"; JStr "s2"; JStr "s3"], w') /\
    log w' = log demo_world ++ reqs /\ length reqs = 3%nat.
Proof.
  apply (proj2 (X13_searches_return_all_pages
           (scripted [ok_response (envelope [JStr "s1"; JStr "s2"] 2);
                      ok_response (envelope [JStr "s3"] 2);
                      ok_response (envelope [] 2)])
           no_repr demo_client
           "https://www.pivotaltracker.com/services/v5/projects/99/stories"
           demo_world 5
           [ok_response (envelope [JStr "s1"; JStr "s2"] 2);
            ok_response (envelope [JStr "s3"] 2)]
           [([JStr "s1"; JStr "s2"], 2); ([JStr "s3"], 2)]
           (ok_response (envelope [] 2))
           eq_refl eq_refl
           ltac:(repeat constructor; apply envelope_serves_page; discriminate)
           (envelope_serves_empty _ 2)
           (scripted_answers _)
           ltac:(simpl; lia))).
Defined.
